(** * generate_db_init.py: a verified model of the SQL init-script generator

    The script [Task02/generate_db_init.py] reads four delimited text files
    (movies, ratings, tags, users), cleans the movie titles, and writes one
    SQL script that drops, creates and fills the four tables.

    This development embeds the script's functions as Rocq functions and
    proves the properties its specification states about them.

    Conventions of the embedding
    - A Python [str] is a list of code points.  Code points are limited to
      the range 0..255 (type [ascii]); on that range the character classes
      of Python ([str.isspace], the regex classes [\s] and [\d],
      [str.lower]) are given by the explicit tables below.
    - A Python [int] is a [Z].  Conversions between [int] and [str] are
      unbounded, as in the language reference (the digit limit that CPython
      can be configured with is not modelled).
    - A Python [float] is an IEEE 754 binary64 number, [spec_float] of the
      standard library with [prec = 53] and [emax = 1024].
    - Code that can raise returns a [result]; [try ... except] is a match
      on it. *)

From Stdlib Require Import Ascii String List ZArith NArith Bool Lia Arith.
From Stdlib Require Import DecimalString.
From Stdlib Require Import Floats.SpecFloat.
Import ListNotations.

Local Open Scope string_scope.
Local Open Scope list_scope.

(** ** Python strings *)

Definition pystr := list ascii.

(** [str "abc"] is the Python literal ["abc"]. *)
Definition str (s : string) : pystr := list_ascii_of_string s.

Definition code (c : ascii) : N := N_of_ascii c.

Definition chr (n : N) : ascii := ascii_of_N n.

(** The characters the source and the generated script name. *)
Definition NL : ascii := chr 10.
Definition CR : ascii := chr 13.
Definition QUOTE : ascii := chr 39.      (* ' *)
Definition DQUOTE : ascii := chr 34.     (* the CSV quote character *)
Definition COMMA : ascii := chr 44.
Definition PIPE : ascii := chr 124.

Definition pystr_eqb (a b : pystr) : bool :=
  if list_eq_dec ascii_dec a b then true else false.

Definition is_empty (s : pystr) : bool :=
  match s with [] => true | _ => false end.

(** [str.isspace] on one character, which is also the regex class [\s] and
    the set [str.strip] removes: TAB..CR, FS..US, space, NEL, NBSP. *)
Definition isspace (c : ascii) : bool :=
  let n := code c in
  (((9 <=? n) && (n <=? 13)) || ((28 <=? n) && (n <=? 32))
   || (n =? 133) || (n =? 160))%N.

(** The regex class [\d] (Unicode decimal digits) below code point 256. *)
Definition isdigit (c : ascii) : bool :=
  let n := code c in ((48 <=? n) && (n <=? 57))%N.

Definition digit_value (c : ascii) : Z := Z.of_N (code c) - 48.

(** [str.lower] on one character: A..Z and the Latin-1 capitals
    (U+00C0..U+00DE without the multiplication sign) move up by 32. *)
Definition lower_char (c : ascii) : ascii :=
  let n := code c in
  if (((65 <=? n) && (n <=? 90))
      || ((192 <=? n) && (n <=? 222) && negb (n =? 215)))%N
  then chr (n + 32) else c.

Definition lower (s : pystr) : pystr := map lower_char s.

Fixpoint drop_while (p : ascii -> bool) (s : pystr) : pystr :=
  match s with
  | [] => []
  | c :: t => if p c then drop_while p t else s
  end.

Definition lstrip (s : pystr) : pystr := drop_while isspace s.
Definition rstrip (s : pystr) : pystr := rev (drop_while isspace (rev s)).
Definition strip (s : pystr) : pystr := rstrip (lstrip s).

(** [s.startswith(p)] *)
Fixpoint startswith (p s : pystr) : bool :=
  match p, s with
  | [], _ => true
  | _ :: _, [] => false
  | a :: p', b :: s' => if ascii_dec a b then startswith p' s' else false
  end.

(** [s.endswith(p)] *)
Definition endswith (p s : pystr) : bool := startswith (rev p) (rev s).

(** [needle in hay] for strings: [needle] occurs as a substring. *)
Fixpoint contains (needle hay : pystr) : bool :=
  startswith needle hay ||
  match hay with
  | [] => false
  | _ :: t => contains needle t
  end.

(** [sep.join(parts)] *)
Fixpoint join (sep : pystr) (parts : list pystr) : pystr :=
  match parts with
  | [] => []
  | [p] => p
  | p :: rest => p ++ sep ++ join sep rest
  end.

(** [s.replace(old, new)]: the occurrences of [old] are found from the
    left and do not overlap.  [skip] counts the characters of an occurrence
    that are still to be dropped. *)
Fixpoint replace_from (skip : nat) (old new s : pystr) : pystr :=
  match s with
  | [] => []
  | c :: t =>
      match skip with
      | S k => replace_from k old new t
      | O =>
          if startswith old s
          then new ++ replace_from (length old - 1) old new t
          else c :: replace_from 0 old new t
      end
  end.

Definition replace (old new s : pystr) : pystr :=
  match old with
  | [] => new ++ flat_map (fun c => c :: new) s
  | _ :: _ => replace_from 0 old new s
  end.

(** ** Python values and exceptions *)

Inductive exn : Type :=
| ValueError
| TypeError
| OverflowError
| IndexError
| CsvError.

Inductive result (A : Type) : Type :=
| Ok (a : A)
| Raise (e : exn).

Arguments Ok {A} a.
Arguments Raise {A} e.

Definition bind {A B} (r : result A) (k : A -> result B) : result B :=
  match r with
  | Ok a => k a
  | Raise e => Raise e
  end.

Notation "x <- r ;; k" := (bind r (fun x => k))
  (at level 61, r at next level, right associativity).

(** [for x in l: acc.append(f(x))] for a body [f] that can raise. *)
Fixpoint mapM {A B} (f : A -> result B) (l : list A) : result (list B) :=
  match l with
  | [] => Ok []
  | x :: t => y <- f x ;; ys <- mapM f t ;; Ok (y :: ys)
  end.

(** The values a row handed to [generate_insert_sql] holds: [None], a
    string read from a file, or the integer year of a movie. *)
Inductive pyval : Type :=
| PNone
| PStr (s : pystr)
| PInt (z : Z).

(** [str(z)] for an integer. *)
Definition str_of_Z (z : Z) : pystr :=
  str (NilZero.string_of_int (Z.to_int z)).

(** [str(v)] *)
Definition py_str (v : pyval) : pystr :=
  match v with
  | PNone => str "None"
  | PStr s => s
  | PInt z => str_of_Z z
  end.

(** ** sql_quote (source lines 57-60) *)

Definition sql_quote (value : pyval) : pystr :=
  match value with
  | PNone => str "NULL"
  | _ => [QUOTE] ++ replace [QUOTE] [QUOTE; QUOTE] (py_str value) ++ [QUOTE]
  end.

(** ** int and float (the builtins behind try_int and try_float) *)

(** The characters [int(s)] and [float(s)] skip around the number.  Both
    builtins first map every white-space character above code point 126
    to a blank and then skip the C-locale blanks TAB..CR and space, so FS..US
    are not skipped although [str.isspace] holds for them. *)
Definition num_space (c : ascii) : bool :=
  let n := code c in
  (((9 <=? n) && (n <=? 13)) || (n =? 32) || (n =? 133) || (n =? 160))%N.

Definition strip_num (s : pystr) : pystr :=
  rev (drop_while num_space (rev (drop_while num_space s))).

Definition UNDERSCORE : ascii := chr 95.
Definition PLUS : ascii := chr 43.
Definition MINUS : ascii := chr 45.
Definition DOT : ascii := chr 46.

Definition ascii_eqb (a b : ascii) : bool :=
  if ascii_dec a b then true else false.

(** An optional sign: the flag says whether it was a minus. *)
Definition split_sign (s : pystr) : bool * pystr :=
  match s with
  | c :: t =>
      if ascii_eqb c MINUS then (true, t)
      else if ascii_eqb c PLUS then (false, t)
      else (false, s)
  | [] => (false, [])
  end.

(** The digits of an integer literal, [digit (_? digit)*]: single
    underscores may stand between digits only.  [prev_digit] says whether
    the character before was a digit; [acc] is the value read so far. *)
Fixpoint int_body (prev_digit : bool) (acc : Z) (s : pystr) : option Z :=
  match s with
  | [] => if prev_digit then Some acc else None
  | c :: t =>
      if isdigit c then int_body true (acc * 10 + digit_value c) t
      else if ascii_eqb c UNDERSCORE
           then (if prev_digit then int_body false acc t else None)
           else None
  end.

(** [int(s)] for a string, base 10. *)
Definition int_of_str (s : pystr) : result Z :=
  let '(neg, body) := split_sign (strip_num s) in
  match int_body false 0 body with
  | Some z => Ok (if neg then (- z)%Z else z)
  | None => Raise ValueError
  end.

Definition binary64 (m e : Z) : spec_float := binary_normalize 53 1024 m e false.

Definition is_infinity (f : spec_float) : bool :=
  match f with S754_infinity _ => true | _ => false end.

(** The double nearest to the decimal [m * 10^e10] (ties to even), with the
    sign [neg]; [m] is not negative.  For a negative exponent the quotient
    is rounded once, from its exact remainder. *)
Definition float_of_decimal (neg : bool) (m e10 : Z) : spec_float :=
  if (m =? 0)%Z then S754_zero neg
  else if (0 <=? e10)%Z
  then binary_round 53 1024 neg (Z.to_pos (m * 10 ^ e10)) 0
  else
    let '(q, e, l) := SFdiv_core_binary 53 1024 m 0 (10 ^ (- e10)) 0 in
    binary_round_aux 53 1024 neg q e l.

(** Underscores in a float literal: each one stands directly between two
    digits.  [prev] is the character before, if any. *)
Fixpoint underscores_ok (prev : option ascii) (s : pystr) : bool :=
  match s with
  | [] =>
      match prev with
      | Some p => negb (ascii_eqb p UNDERSCORE)
      | None => true
      end
  | c :: t =>
      (if ascii_eqb c UNDERSCORE
       then match prev with Some p => isdigit p | None => false end
       else match prev with
            | Some p => negb (ascii_eqb p UNDERSCORE) || isdigit c
            | None => true
            end)
      && underscores_ok (Some c) t
  end.

Definition remove_underscores (s : pystr) : pystr :=
  filter (fun c => negb (ascii_eqb c UNDERSCORE)) s.

(** The longest prefix of digits and what follows it. *)
Fixpoint span_digits (s : pystr) : pystr * pystr :=
  match s with
  | c :: t =>
      if isdigit c
      then let '(d, r) := span_digits t in (c :: d, r)
      else ([], s)
  | [] => ([], [])
  end.

Definition digits_value (ds : pystr) : Z :=
  fold_left (fun acc c => (acc * 10 + digit_value c)%Z) ds 0%Z.

(** Letters A..Z to lower case, as the C-locale comparison of the float
    parser does. *)
Definition tolower_c (c : ascii) : ascii :=
  let n := code c in
  if ((65 <=? n) && (n <=? 90))%N then chr (n + 32) else c.

(** The exponent part [e[+-]digits] that closes a decimal literal, or
    nothing at all. *)
Definition parse_exponent (s : pystr) : option Z :=
  match s with
  | [] => Some 0%Z
  | c :: t =>
      if ascii_eqb (tolower_c c) (chr 101)
      then
        let '(neg, t') := split_sign t in
        match span_digits t' with
        | ((_ :: _) as ds, []) =>
            Some (if neg then (- digits_value ds)%Z else digits_value ds)
        | _ => None
        end
      else None
  end.

(** A decimal literal [digits [. digits] [exponent]] with at least one
    digit before the exponent: its digits and its power of ten. *)
Definition parse_decimal (s : pystr) : option (Z * Z) :=
  let '(ip, r1) := span_digits s in
  let '(fp, r2) :=
    match r1 with
    | c :: t => if ascii_eqb c DOT then span_digits t else ([], r1)
    | [] => ([], [])
    end in
  match ip ++ fp with
  | [] => None
  | ds =>
      match parse_exponent r2 with
      | Some ex => Some (digits_value ds, (ex - Z.of_nat (length fp))%Z)
      | None => None
      end
  end.

(** [float(s)] for a string. *)
Definition float_of_str (s : pystr) : result spec_float :=
  if underscores_ok None s then
    let '(neg, body) := split_sign (strip_num (remove_underscores s)) in
    let word := map tolower_c body in
    if pystr_eqb word (str "inf") || pystr_eqb word (str "infinity")
    then Ok (S754_infinity neg)
    else if pystr_eqb word (str "nan") then Ok S754_nan
    else match parse_decimal body with
         | Some (m, e10) => Ok (float_of_decimal neg m e10)
         | None => Raise ValueError
         end
  else Raise ValueError.

(** [int(v)] *)
Definition py_int (v : pyval) : result Z :=
  match v with
  | PNone => Raise TypeError
  | PStr s => int_of_str s
  | PInt z => Ok z
  end.

(** [float(v)]: an integer too large for a double raises. *)
Definition py_float (v : pyval) : result spec_float :=
  match v with
  | PNone => Raise TypeError
  | PStr s => float_of_str s
  | PInt z =>
      let f := binary64 z 0 in
      if is_infinity f then Raise OverflowError else Ok f
  end.

(** try_int, try_float (source lines 63-74): the bare [except] turns every
    exception into [None]. *)
Definition try_int (value : pyval) : option Z :=
  match py_int value with
  | Ok z => Some z
  | Raise _ => None
  end.

Definition try_float (value : pyval) : option spec_float :=
  match py_float value with
  | Ok f => Some f
  | Raise _ => None
  end.

(** ** str(float): the shortest decimal string that reads back as the
    same double *)

Definition float_same (a b : spec_float) : bool :=
  match a, b with
  | S754_finite s1 m1 e1, S754_finite s2 m2 e2 =>
      Bool.eqb s1 s2 && (m1 =? m2)%positive && (e1 =? e2)%Z
  | S754_zero s1, S754_zero s2 => Bool.eqb s1 s2
  | S754_infinity s1, S754_infinity s2 => Bool.eqb s1 s2
  | S754_nan, S754_nan => true
  | _, _ => false
  end.

(** A positive double [m * 2^e] as the fraction [num / den]. *)
Definition float_num (m : positive) (e : Z) : Z :=
  if (0 <=? e)%Z then (Zpos m * 2 ^ e)%Z else Zpos m.
Definition float_den (e : Z) : Z :=
  if (0 <=? e)%Z then 1%Z else (2 ^ (- e))%Z.

(** [floor ((num / den) / 10^k)] *)
Definition scaled_floor (num den k : Z) : Z :=
  if (0 <=? k)%Z then (num / (den * 10 ^ k))%Z
  else ((num * 10 ^ (- k)) / den)%Z.

(** The position [p] of the decimal point of [num / den]:
    [10^(p-1) <= num / den < 10^p].  The search starts at a [p] above the
    value and moves down while the fraction is below [10^(p-1)]. *)
Fixpoint decimal_point (fuel : nat) (num den p : Z) : Z :=
  match fuel with
  | O => p
  | S f =>
      if (scaled_floor num den (p - 1) =? 0)%Z
      then decimal_point f num den (p - 1)
      else p
  end.

(** Whether [2 * (num / den)] lies above [(2 * d + 1) * 10^k], that is
    whether the fraction is nearer to [d + 1] than to [d] in units of
    [10^k]. *)
Definition nearer_up (num den d k : Z) : bool :=
  if (0 <=? k)%Z
  then ((2 * d + 1) * 10 ^ k * den <? 2 * num)%Z
  else ((2 * d + 1) * den <? 2 * num * 10 ^ (- k))%Z.

(** The shortest digit string: for [n = 1, 2, ...] digits the two
    [n]-digit decimals around the value are read back; the first [n] at
    which one of them gives the double again wins, the nearer one if both
    do.  Seventeen digits always suffice. *)
Fixpoint shortest_from (fuel : nat) (n : Z) (x : spec_float)
    (num den p : Z) : Z * Z :=
  let k := (p - n)%Z in
  let d := scaled_floor num den k in
  match fuel with
  | O => (d, k)
  | S f =>
      let lo := float_same (float_of_decimal false d k) x in
      let hi := float_same (float_of_decimal false (d + 1) k) x in
      if lo && hi then (if nearer_up num den d k then (d + 1)%Z else d, k)
      else if lo then (d, k)
      else if hi then ((d + 1)%Z, k)
      else shortest_from f (n + 1) x num den p
  end.

(** Trailing zeros of the digits move into the exponent. *)
Fixpoint drop_zeros (fuel : nat) (d k : Z) : Z * Z :=
  match fuel with
  | O => (d, k)
  | S f =>
      if ((d mod 10 =? 0) && negb (d =? 0))%Z
      then drop_zeros f (d / 10)%Z (k + 1)%Z
      else (d, k)
  end.

(** The digits of a positive finite double and the position of its
    decimal point: the value reads [0.DIGITS * 10^decpt]. *)
Definition shortest_digits (m : positive) (e : Z) : pystr * Z :=
  let num := float_num m e in
  let den := float_den e in
  let p0 := ((Z.log2 num - Z.log2 den + 1) * 30103 / 100000 + 2)%Z in
  let p := decimal_point 8 num den p0 in
  let '(d, k) := shortest_from 17 1 (S754_finite false m e) num den p in
  let '(d', k') := drop_zeros 17 d k in
  let ds := str_of_Z d' in
  (ds, (Z.of_nat (length ds) + k')%Z).

Definition zeros (n : Z) : pystr := repeat (chr 48) (Z.to_nat n).

(** The exponent of the scientific form: a sign and at least two digits. *)
Definition exponent_text (x : Z) : pystr :=
  let a := str_of_Z (Z.abs x) in
  (if (x <? 0)%Z then [MINUS] else [PLUS])
    ++ (if (length a <? 2)%nat then chr 48 :: a else a).

(** [repr] of a positive finite double from its digits: scientific form
    when the decimal point lies more than 16 places right or 4 or more
    places left of the first digit, plain form (with [.0] for an integer)
    otherwise. *)
Definition format_digits (ds : pystr) (decpt : Z) : pystr :=
  let n := Z.of_nat (length ds) in
  if ((decpt <=? -4) || (16 <? decpt))%Z then
    match ds with
    | [] => []
    | d1 :: rest =>
        [d1] ++ (match rest with [] => [] | _ => DOT :: rest end)
             ++ [chr 101] ++ exponent_text (decpt - 1)
    end
  else if (decpt <=? 0)%Z then
    str "0." ++ zeros (- decpt) ++ ds
  else if (n <=? decpt)%Z then
    ds ++ zeros (decpt - n) ++ str ".0"
  else
    firstn (Z.to_nat decpt) ds ++ [DOT] ++ skipn (Z.to_nat decpt) ds.

(** [str(f)] for a float. *)
Definition str_of_float (f : spec_float) : pystr :=
  match f with
  | S754_nan => str "nan"
  | S754_infinity s => (if s then [MINUS] else []) ++ str "inf"
  | S754_zero s => (if s then [MINUS] else []) ++ str "0.0"
  | S754_finite s m e =>
      let '(ds, decpt) := shortest_digits m e in
      (if s then [MINUS] else []) ++ format_digits ds decpt
  end.

(** ** The Schema Catalog (source lines 17-54) *)

(** A column: its name and its declared SQL type. *)
Definition column := (pystr * pystr)%type.

(** The four functions take a sample row and do not look at it. *)
Definition detect_movies_schema {A : Type} (sample_row : A) : list column :=
  [ (str "id", str "INTEGER PRIMARY KEY");
    (str "title", str "TEXT NOT NULL");
    (str "year", str "INTEGER");
    (str "genres", str "TEXT") ].

Definition detect_ratings_schema {A : Type} (sample_row : A) : list column :=
  [ (str "id", str "INTEGER PRIMARY KEY");
    (str "user_id", str "INTEGER NOT NULL");
    (str "movie_id", str "INTEGER NOT NULL");
    (str "rating", str "REAL NOT NULL");
    (str "timestamp", str "INTEGER NOT NULL") ].

Definition detect_tags_schema {A : Type} (sample_row : A) : list column :=
  [ (str "id", str "INTEGER PRIMARY KEY");
    (str "user_id", str "INTEGER NOT NULL");
    (str "movie_id", str "INTEGER NOT NULL");
    (str "tag", str "TEXT NOT NULL");
    (str "timestamp", str "INTEGER NOT NULL") ].

Definition detect_users_schema {A : Type} (sample_row : A) : list column :=
  [ (str "id", str "INTEGER PRIMARY KEY");
    (str "name", str "TEXT NOT NULL");
    (str "email", str "TEXT NOT NULL");
    (str "gender", str "TEXT");
    (str "register_date", str "TEXT NOT NULL");
    (str "occupation", str "TEXT") ].

(** ** generate_create_table_sql (source lines 112-114) *)

Definition generate_create_table_sql (table_name : pystr)
    (columns : list column) : pystr :=
  let cols_sql :=
    join (str "," ++ [NL] ++ str "    ")
         (map (fun '(name, ctype) => name ++ str " " ++ ctype) columns) in
  str "DROP TABLE IF EXISTS " ++ table_name ++ str ";" ++ [NL]
    ++ str "CREATE TABLE " ++ table_name ++ str " (" ++ [NL]
    ++ str "    " ++ cols_sql ++ [NL] ++ str ");" ++ [NL].

(** ** generate_insert_sql (source lines 117-139) *)

Definition NULL : pystr := str "NULL".

(** [l.index(x)]: the position of the first element equal to [x]. *)
Fixpoint index (x : pystr) (l : list pystr) : result nat :=
  match l with
  | [] => Raise ValueError
  | y :: t => if pystr_eqb y x then Ok O else i <- index x t ;; Ok (S i)
  end.

(** [r[i]] for a list and an index that is not negative. *)
Definition getitem {A : Type} (r : list A) (i : nat) : result A :=
  match nth_error r i with
  | Some v => Ok v
  | None => Raise IndexError
  end.

(** [v is None] or [v] is the empty string (line 125). *)
Definition none_or_empty (v : pyval) : bool :=
  match v with
  | PNone => true
  | PStr s => is_empty s
  | PInt _ => false
  end.

(** The Value Coercer: lines 125-135, the part of the inner loop that turns
    the value [v] of a column of type [ctype] into a literal. *)
Definition coerce (v : pyval) (ctype : pystr) : result pystr :=
  if none_or_empty v then Ok NULL
  else if contains (str "INTEGER") ctype then
    let iv := try_int v in
    Ok (match iv with None => NULL | Some i => str_of_Z i end)
  else if contains (str "REAL") ctype then
    let fv := try_float v in
    Ok (match fv with None => NULL | Some f => str_of_float f end)
  else Ok (sql_quote v).

(** The body of the inner loop, lines 123-135, for the row [r] and one
    column. *)
Definition cell (col_names : list pystr) (r : list pyval) (col : column)
  : result pystr :=
  let '(name, ctype) := col in
  idx <- index name col_names ;;
  v <- (if (idx <? length r)%nat then getitem r idx else Ok PNone) ;;
  coerce v ctype.

(** The body of the outer loop, lines 121-136: one parenthesised row. *)
Definition row_sql (columns : list column) (col_names : list pystr)
    (r : list pyval) : result pystr :=
  vals <- mapM (cell col_names r) columns ;;
  Ok (str "(" ++ join (str ", ") vals ++ str ")").

Definition generate_insert_sql (table_name : pystr) (columns : list column)
    (rows : list (list pyval)) : result pystr :=
  let col_names := map fst columns in
  values_sql <- mapM (row_sql columns col_names) rows ;;
  match values_sql with
  | [] => Ok []
  | _ =>
      Ok (str "INSERT INTO " ++ table_name ++ str " ("
            ++ join (str ", ") col_names ++ str ") VALUES" ++ [NL]
            ++ join (str "," ++ [NL]) values_sql ++ str ";" ++ [NL])
  end.

(** ** The Title Parser (source lines 92-109) *)

Definition LPAREN : ascii := chr 40.
Definition RPAREN : ascii := chr 41.

(** The regex anchor [$]: the end of the string, or the place just before
    a newline that ends the string. *)
Definition at_dollar (s : pystr) : bool :=
  match s with
  | [] => true
  | [c] => ascii_eqb c NL
  | _ => false
  end.

(** The tail [\s*$] of the pattern at the start of [s]: the greedy star
    takes a blank and tries the rest, and gives the blank back when the
    rest fails.  The result is the number of characters the star took. *)
Fixpoint match_spaces_end (s : pystr) : option nat :=
  match s with
  | [] => Some O
  | c :: t =>
      if isspace c then
        match match_spaces_end t with
        | Some n => Some (S n)
        | None => if at_dollar s then Some O else None
        end
      else if at_dollar s then Some O else None
  end.

(** [year_pattern = \((\d{4})\)\s*$] matched at the start of [s]: group 1
    and the length of the whole match. *)
Definition year_match_here (s : pystr) : option (pystr * nat) :=
  match s with
  | p :: d1 :: d2 :: d3 :: d4 :: q :: rest =>
      if ascii_eqb p LPAREN
         && isdigit d1 && isdigit d2 && isdigit d3 && isdigit d4
         && ascii_eqb q RPAREN
      then match match_spaces_end rest with
           | Some n => Some ([d1; d2; d3; d4], (6 + n)%nat)
           | None => None
           end
      else None
  | _ => None
  end.

(** [year_pattern.search(s)]: the leftmost match. *)
Fixpoint year_search (s : pystr) : option (pystr * nat) :=
  match year_match_here s with
  | Some m => Some m
  | None =>
      match s with
      | [] => None
      | _ :: t => year_search t
      end
  end.

(** [year_pattern.sub] with the empty replacement: every match, found
    from the left, is cut out.  [skip] counts the characters of a match still to be dropped. *)
Fixpoint year_sub_from (skip : nat) (s : pystr) : pystr :=
  match s with
  | [] => []
  | c :: t =>
      match skip with
      | S k => year_sub_from k t
      | O =>
          match year_match_here s with
          | Some (_, n) => year_sub_from (n - 1) t
          | None => c :: year_sub_from 0 t
          end
      end
  end.

Definition year_sub (s : pystr) : pystr := year_sub_from 0 s.

(** Lines 107-108: a comma that ends the title goes, with the blanks
    before it. *)
Definition drop_trailing_comma (title : pystr) : pystr :=
  if endswith [COMMA] title then rstrip (removelast title) else title.

Definition extract_year_and_clean_title (raw_title : option pystr)
  : option pystr * option Z :=
  match raw_title with
  | None => (None, None)
  | Some raw =>
      let title := strip raw in
      match year_search title with
      | Some (group1, _) =>
          let year :=
            match int_of_str group1 with
            | Ok y => Some y
            | Raise _ => None
            end in
          let title := rstrip (year_sub title) in
          (Some (drop_trailing_comma title), year)
      | None => (Some title, None)
      end
  end.

(** ** The Row Reader (source lines 77-89) *)

(** *** The file as text

    The file is opened in text mode with the default newline handling:
    [\r\n] and a lone [\r] both read as [\n]. *)
Fixpoint universal_newlines (after_cr : bool) (s : pystr) : pystr :=
  match s with
  | [] => []
  | c :: t =>
      if ascii_eqb c CR then NL :: universal_newlines true t
      else if ascii_eqb c NL
           then (if after_cr then universal_newlines false t
                 else NL :: universal_newlines false t)
           else c :: universal_newlines false t
  end.

(** The lines of a text, each with the newline that ends it; [cur] is the
    line being collected. *)
Fixpoint split_lines (cur : pystr) (s : pystr) : list pystr :=
  match s with
  | [] => match cur with [] => [] | _ => [cur] end
  | c :: t =>
      if ascii_eqb c NL then (cur ++ [NL]) :: split_lines [] t
      else split_lines (cur ++ [c]) t
  end.

(** What iterating over the open file yields. *)
Definition file_lines (content : pystr) : list pystr :=
  split_lines [] (universal_newlines false content).

(** [f.readline()] at the start of the file. *)
Definition readline (content : pystr) : pystr := hd [] (file_lines content).

(** *** csv.reader

    The reader of the [csv] module for the default dialect (the double
    quote as quote character, doubled quotes, no escape character, not
    strict) with a given
    delimiter.  The states and the transitions are those of the module's
    parser; the two states that only an escape character reaches are left
    out.  The limit on the size of a field is not modelled. *)
Inductive parser_state : Type :=
| START_RECORD
| START_FIELD
| IN_FIELD
| IN_QUOTED_FIELD
| QUOTE_IN_QUOTED_FIELD
| EAT_CRNL.

Record reader : Type := mkReader {
  fields : list pystr;   (* the fields of the record read so far *)
  field : pystr;         (* the field being collected *)
  state : parser_state
}.

Definition parse_reset : reader := mkReader [] [] START_RECORD.

Definition parse_save_field (self : reader) : reader :=
  mkReader (fields self ++ [field self]) [] (state self).

Definition parse_add_char (self : reader) (c : ascii) : reader :=
  mkReader (fields self) (field self ++ [c]) (state self).

Definition set_state (self : reader) (s : parser_state) : reader :=
  mkReader (fields self) (field self) s.

Definition is_newline (c : ascii) : bool := ascii_eqb c NL || ascii_eqb c CR.

(** One step of the parser; [None] is the end-of-line mark the reader
    sends after the last character of each line. *)
Definition parse_process_char (delimiter : ascii) (self : reader)
    (c : option ascii) : result reader :=
  let start_field (self : reader) : result reader :=
    match c with
    | None => Ok (set_state (parse_save_field self) START_RECORD)
    | Some ch =>
        if is_newline ch then Ok (set_state (parse_save_field self) EAT_CRNL)
        else if ascii_eqb ch DQUOTE then Ok (set_state self IN_QUOTED_FIELD)
        else if ascii_eqb ch delimiter then Ok (parse_save_field self)
        else Ok (set_state (parse_add_char self ch) IN_FIELD)
    end in
  match state self with
  | START_RECORD =>
      match c with
      | None => Ok self
      | Some ch =>
          if is_newline ch then Ok (set_state self EAT_CRNL)
          else start_field (set_state self START_FIELD)
      end
  | START_FIELD => start_field self
  | IN_FIELD =>
      match c with
      | None => Ok (set_state (parse_save_field self) START_RECORD)
      | Some ch =>
          if is_newline ch then Ok (set_state (parse_save_field self) EAT_CRNL)
          else if ascii_eqb ch delimiter
               then Ok (set_state (parse_save_field self) START_FIELD)
               else Ok (parse_add_char self ch)
      end
  | IN_QUOTED_FIELD =>
      match c with
      | None => Ok self
      | Some ch =>
          if ascii_eqb ch DQUOTE then Ok (set_state self QUOTE_IN_QUOTED_FIELD)
          else Ok (parse_add_char self ch)
      end
  | QUOTE_IN_QUOTED_FIELD =>
      match c with
      | None => Ok (set_state (parse_save_field self) START_RECORD)
      | Some ch =>
          if ascii_eqb ch DQUOTE
          then Ok (set_state (parse_add_char self ch) IN_QUOTED_FIELD)
          else if ascii_eqb ch delimiter
               then Ok (set_state (parse_save_field self) START_FIELD)
               else if is_newline ch
                    then Ok (set_state (parse_save_field self) EAT_CRNL)
                    else Ok (set_state (parse_add_char self ch) IN_FIELD)
      end
  | EAT_CRNL =>
      match c with
      | None => Ok (set_state self START_RECORD)
      | Some ch => if is_newline ch then Ok self else Raise CsvError
      end
  end.

(** The characters of one line, then the end-of-line mark. *)
Fixpoint feed_line (delimiter : ascii) (self : reader) (line : pystr)
  : result reader :=
  match line with
  | [] => parse_process_char delimiter self None
  | c :: t =>
      self' <- parse_process_char delimiter self (Some c) ;;
      feed_line delimiter self' t
  end.

Definition in_start_record (self : reader) : bool :=
  match state self with START_RECORD => true | _ => false end.

Definition in_quoted_field (self : reader) : bool :=
  match state self with IN_QUOTED_FIELD => true | _ => false end.

(** All the records the reader yields from [lines].  A record is complete
    when a line leaves the parser in [START_RECORD]; otherwise the next line
    continues it.  When the input ends inside a record, the record is
    closed if a field is open. *)
Fixpoint reader_rows (delimiter : ascii) (self : reader)
    (lines : list pystr) : result (list (list pystr)) :=
  match lines with
  | [] =>
      if negb (is_empty (field self)) || in_quoted_field self
      then Ok [fields (parse_save_field self)]
      else Ok []
  | line :: rest =>
      self' <- feed_line delimiter self line ;;
      if in_start_record self'
      then rows <- reader_rows delimiter parse_reset rest ;;
           Ok (fields self' :: rows)
      else reader_rows delimiter self' rest
  end.

Definition csv_reader (delimiter : ascii) (lines : list pystr)
  : result (list (list pystr)) :=
  reader_rows delimiter parse_reset lines.

(** *** read_csv_rows *)

Definition header_keywords : list pystr :=
  [ str "id"; str "title"; str "user_id"; str "movie_id";
    str "rating"; str "timestamp"; str "name"; str "email" ].

(** Line 82: some keyword occurs in the lowered first line. *)
Definition has_header (first_line : pystr) : bool :=
  existsb (fun h => contains h (lower first_line)) header_keywords.

(** Line 88: [row and any(col.strip() for col in row)]. *)
Definition keep_row (row : list pystr) : bool :=
  negb (match row with [] => true | _ => false end)
  && existsb (fun col => negb (is_empty (strip col))) row.

(** [list(read_csv_rows(path, delimiter))] for a file with the given
    content: the rows the generator yields, or the exception it raises. *)
Definition read_csv_rows (content : pystr) (delimiter : ascii)
  : result (list (list pystr)) :=
  let first_line := readline content in
  rows <- csv_reader delimiter (file_lines content) ;;
  (* next(reader, None) drops the first record the reader yields *)
  let rows := if has_header first_line then tl rows else rows in
  Ok (filter keep_row rows).

(** ** main (source lines 151-193) *)

(** [r[i] if len(r) > i else None] *)
Definition item_or_none (r : list pystr) (i : nat) : option pystr :=
  if (i <? length r)%nat then nth_error r i else None.

Definition of_opt_str (o : option pystr) : pyval :=
  match o with Some s => PStr s | None => PNone end.

Definition of_opt_int (o : option Z) : pyval :=
  match o with Some z => PInt z | None => PNone end.

(** Lines 155-159: the transformed row of one raw movies row. *)
Definition movie_row (r : list pystr) : list pyval :=
  let movie_id := item_or_none r 0 in
  let raw_title := item_or_none r 1 in
  let genres := item_or_none r 2 in
  let '(clean_title, year) := extract_year_and_clean_title raw_title in
  [of_opt_str movie_id; of_opt_str clean_title; of_opt_int year;
   of_opt_str genres].

(** The rows of the other files go to [generate_insert_sql] as read. *)
Definition raw_row (r : list pystr) : list pyval := map PStr r.

Definition sample {A : Type} (rows : list (list A)) : list A :=
  match rows with r :: _ => r | [] => [] end.

(** Lines 170-193: the text written to [db_init.sql], from the rows of the
    four tables. *)
Definition assemble (movie_rows rating_rows tag_rows user_rows
                     : list (list pyval)) : result pystr :=
  let movies_columns := detect_movies_schema (sample movie_rows) in
  let ratings_columns := detect_ratings_schema (sample rating_rows) in
  let tags_columns := detect_tags_schema (sample tag_rows) in
  let users_columns := detect_users_schema (sample user_rows) in
  let sql_parts :=
    [ str "-- SQLite init script for movies_rating.db";
      str "PRAGMA foreign_keys = OFF;";
      str "BEGIN TRANSACTION;";
      generate_create_table_sql (str "movies") movies_columns;
      generate_create_table_sql (str "ratings") ratings_columns;
      generate_create_table_sql (str "tags") tags_columns;
      generate_create_table_sql (str "users") users_columns ] in
  sql_parts <-
    match movie_rows with
    | [] => Ok sql_parts
    | _ => p <- generate_insert_sql (str "movies") movies_columns movie_rows ;;
           Ok (sql_parts ++ [p])
    end ;;
  sql_parts <-
    match rating_rows with
    | [] => Ok sql_parts
    | _ => p <- generate_insert_sql (str "ratings") ratings_columns rating_rows ;;
           Ok (sql_parts ++ [p])
    end ;;
  sql_parts <-
    match tag_rows with
    | [] => Ok sql_parts
    | _ => p <- generate_insert_sql (str "tags") tags_columns tag_rows ;;
           Ok (sql_parts ++ [p])
    end ;;
  sql_parts <-
    match user_rows with
    | [] => Ok sql_parts
    | _ => p <- generate_insert_sql (str "users") users_columns user_rows ;;
           Ok (sql_parts ++ [p])
    end ;;
  let sql_parts := sql_parts ++ [str "COMMIT;"] in
  Ok (join [NL; NL] (filter (fun p => negb (is_empty p)) sql_parts)).

(** [main] for the contents of the four input files: the text of
    [db_init.sql]. *)
Definition main (movies ratings tags users : pystr) : result pystr :=
  raw_movie_rows <- read_csv_rows movies COMMA ;;
  let movie_rows := map movie_row raw_movie_rows in
  rating_rows <- read_csv_rows ratings COMMA ;;
  tag_rows <- read_csv_rows tags COMMA ;;
  user_rows <- read_csv_rows users PIPE ;;
  assemble movie_rows (map raw_row rating_rows) (map raw_row tag_rows)
           (map raw_row user_rows).

(** ** The specification's reading of three of the operations

    These definitions follow the words of the specification, not the
    source; the theorems below compare the source's functions with them. *)

(** The standard reading of a SQL string literal: the text between the two
    outer quotes, where a doubled quote stands for one quote.  A lone quote
    inside the text, or a missing outer quote, is no literal. *)
Fixpoint sql_unquote_body (s : pystr) : option pystr :=
  match s with
  | [] => None
  | c :: t =>
      if ascii_eqb c QUOTE then
        match t with
        | [] => Some []
        | c2 :: t2 =>
            if ascii_eqb c2 QUOTE
            then option_map (cons QUOTE) (sql_unquote_body t2)
            else None
        end
      else option_map (cons c) (sql_unquote_body t)
  end.

Definition sql_unquote (s : pystr) : option pystr :=
  match s with
  | c :: t => if ascii_eqb c QUOTE then sql_unquote_body t else None
  | [] => None
  end.

(** Every quote of a text doubled, character by character. *)
Definition double_quotes (s : pystr) : pystr :=
  flat_map (fun c => if ascii_eqb c QUOTE then [QUOTE; QUOTE] else [c]) s.

(** The six characters of a year in parentheses. *)
Definition year_text (d1 d2 d3 d4 : ascii) : pystr :=
  [LPAREN; d1; d2; d3; d4; RPAREN].

(** A title that ends with a year in parentheses, [(YYYY)] with four
    digits as its last six characters: the text before the year and the
    four digits. *)
Definition year_suffix (t : pystr) : option (pystr * pystr) :=
  match rev t with
  | q :: d4 :: d3 :: d2 :: d1 :: p :: before =>
      if ascii_eqb p LPAREN
         && isdigit d1 && isdigit d2 && isdigit d3 && isdigit d4
         && ascii_eqb q RPAREN
      then Some (rev before, [d1; d2; d3; d4])
      else None
  | _ => None
  end.

(** The Row Reader as the specification words it: the first physical line
    is left out when it names a keyword, and the lines that remain are
    parsed. *)
Definition read_csv_rows_skipping_line (content : pystr) (delimiter : ascii)
  : result (list (list pystr)) :=
  let lines := file_lines content in
  let data := if has_header (readline content) then tl lines else lines in
  rows <- csv_reader delimiter data ;;
  Ok (filter keep_row rows).

(** A line as the file yields it: no carriage return, and a newline only
    as its last character. *)
Fixpoint line_ok (l : pystr) : bool :=
  match l with
  | [] => true
  | c :: t =>
      if is_newline c then ascii_eqb c NL && is_empty t else line_ok t
  end.

(** States of the reader the proofs tell apart: not waiting for the end
    of the line; between two records or inside a quoted field; outside
    quotes. *)
Definition not_eating (self : reader) : Prop :=
  state self <> EAT_CRNL.

Definition at_record_boundary (self : reader) : Prop :=
  state self = START_RECORD \/ state self = IN_QUOTED_FIELD.

Definition unquoted (self : reader) : Prop :=
  state self = START_RECORD \/ state self = START_FIELD
  \/ state self = IN_FIELD.

(** A file whose header record has a quoted field that runs over the
    first two lines; a third line holds one data row. *)
Definition quoted_header_file : pystr :=
  str "id," ++ [DQUOTE] ++ str "a" ++ [NL]
    ++ str "b" ++ [DQUOTE; NL]
    ++ str "1,x" ++ [NL].

(** A row is empty when every field is blank after trimming. *)
Definition empty_row (row : list pystr) : Prop :=
  Forall (fun col => strip col = []) row.

(** The four datasets, to speak about each of them. *)
Inductive dataset : Type := Movies | Ratings | Tags | Users.

Definition all_datasets : list dataset := [Movies; Ratings; Tags; Users].

Definition table_name (d : dataset) : pystr :=
  match d with
  | Movies => str "movies"
  | Ratings => str "ratings"
  | Tags => str "tags"
  | Users => str "users"
  end.

Definition schema (d : dataset) : list column :=
  match d with
  | Movies => detect_movies_schema tt
  | Ratings => detect_ratings_schema tt
  | Tags => detect_tags_schema tt
  | Users => detect_users_schema tt
  end.

Definition dataset_eqb (a b : dataset) : bool :=
  match a, b with
  | Movies, Movies | Ratings, Ratings | Tags, Tags | Users, Users => true
  | _, _ => false
  end.

Definition is_underscore (c : ascii) : bool := ascii_eqb c UNDERSCORE.

(** What the REAL branch of the coercer does in a column of type [ctype]:
    a value that [float] accepts is emitted as [str] of the float; so the
    texts [4] and [3.50] come out as [4.0] and [3.5], and [inf] and [nan]
    come out as they are, without quotes. *)
Definition emits_float_text (ctype : pystr) : Prop :=
  (forall (v : pyval) (f : spec_float),
      none_or_empty v = false -> py_float v = Ok f ->
      coerce v ctype = Ok (str_of_float f))
  /\ coerce (PStr (str "4")) ctype = Ok (str "4.0")
  /\ coerce (PStr (str "3.50")) ctype = Ok (str "3.5")
  /\ coerce (PStr (str "inf")) ctype = Ok (str "inf")
  /\ coerce (PStr (str "nan")) ctype = Ok (str "nan").

(** The blocks of the script, named as the specification names them. *)
Definition prologue : list pystr :=
  [ str "-- SQLite init script for movies_rating.db";
    str "PRAGMA foreign_keys = OFF;";
    str "BEGIN TRANSACTION;" ].

Definition epilogue : list pystr := [ str "COMMIT;" ].

Definition create_block (d : dataset) : pystr :=
  generate_create_table_sql (table_name d) (schema d).

Definition insert_block (rows : dataset -> list (list pyval)) (d : dataset)
  : result pystr :=
  generate_insert_sql (table_name d) (schema d) (rows d).

(** [assemble] for the rows of the four datasets given as one function. *)
Definition assemble_rows (rows : dataset -> list (list pyval))
  : result pystr :=
  assemble (rows Movies) (rows Ratings) (rows Tags) (rows Users).

Definition rows_of (movie_rows rating_rows tag_rows user_rows
                    : list (list pyval)) (d : dataset) : list (list pyval) :=
  match d with
  | Movies => movie_rows
  | Ratings => rating_rows
  | Tags => tag_rows
  | Users => user_rows
  end.

(** The datasets other than [d], in the fixed order. *)
Definition others (d : dataset) : list dataset :=
  filter (fun d' => negb (dataset_eqb d d')) all_datasets.

Definition nonempty (p : pystr) : bool := negb (is_empty p).

(** The text [a; b; c] stands for: each line followed by a newline. *)
Definition text (lines : list string) : pystr :=
  flat_map (fun l => str l ++ [NL]) lines.

(** * Theorems *)

(** ** Characters and basic string facts *)

Lemma ascii_eqb_refl (c : ascii) : ascii_eqb c c = true.
Proof. unfold ascii_eqb. destruct (ascii_dec c c); congruence. Qed.

Lemma ascii_eqb_eq (a b : ascii) : ascii_eqb a b = true <-> a = b.
Proof.
  unfold ascii_eqb. destruct (ascii_dec a b); split; congruence.
Qed.

Lemma ascii_eqb_neq (a b : ascii) : ascii_eqb a b = false <-> a <> b.
Proof.
  unfold ascii_eqb. destruct (ascii_dec a b); split; congruence.
Qed.

Lemma pystr_eqb_eq (a b : pystr) : pystr_eqb a b = true <-> a = b.
Proof.
  unfold pystr_eqb. destruct (list_eq_dec ascii_dec a b); split; congruence.
Qed.

Lemma pystr_eqb_refl (a : pystr) : pystr_eqb a a = true.
Proof. apply pystr_eqb_eq. reflexivity. Qed.

Lemma startswith_single (c d : ascii) (t : pystr) :
  startswith [c] (d :: t) = ascii_eqb c d.
Proof. simpl. unfold ascii_eqb. destruct (ascii_dec c d); reflexivity. Qed.

(** ** sql_quote *)

(** Replacing the quote by two quotes doubles the quotes one by one. *)
Lemma replace_quote_double (s : pystr) :
  replace [QUOTE] [QUOTE; QUOTE] s = double_quotes s.
Proof.
  unfold replace, double_quotes.
  induction s as [|c t IH]; [reflexivity|].
  cbn [replace_from flat_map]. rewrite startswith_single.
  replace (ascii_eqb QUOTE c) with (ascii_eqb c QUOTE).
  - destruct (ascii_eqb c QUOTE); cbn [length Nat.sub app]; rewrite IH;
      reflexivity.
  - unfold ascii_eqb.
    destruct (ascii_dec c QUOTE), (ascii_dec QUOTE c); congruence.
Qed.

Lemma sql_unquote_body_doubled (s : pystr) :
  sql_unquote_body (double_quotes s ++ [QUOTE]) = Some s.
Proof.
  unfold double_quotes.
  induction s as [|c t IH].
  - reflexivity.
  - cbn [flat_map]. destruct (ascii_eqb c QUOTE) eqn:E.
    + apply ascii_eqb_eq in E. subst c.
      cbn [app sql_unquote_body]. rewrite ascii_eqb_refl, IH. reflexivity.
    + cbn [app sql_unquote_body]. rewrite E, IH. reflexivity.
Qed.

(** C3.  For every string [s], [sql_quote] returns [s] between two single
    quotes with every quote of [s] doubled, and reading that literal back by
    the standard SQL rule gives [s] again. *)
Theorem sql_quote_roundtrip (s : pystr) :
  sql_quote (PStr s) = [QUOTE] ++ double_quotes s ++ [QUOTE]
  /\ sql_unquote (sql_quote (PStr s)) = Some s.
Proof.
  assert (E : sql_quote (PStr s) = [QUOTE] ++ double_quotes s ++ [QUOTE]).
  { unfold sql_quote, py_str. rewrite replace_quote_double. reflexivity. }
  split; [exact E|].
  rewrite E. cbn [app sql_unquote]. rewrite ascii_eqb_refl.
  apply sql_unquote_body_doubled.
Qed.

(** ** The Schema Catalog and CREATE TABLE *)

(** C4.  Each of the four schema functions returns the same fixed column
    list for every sample row, and the CREATE TABLE statement generated from
    it lists exactly these columns, in this order. *)
Theorem schema_fixed_and_create_table :
  forall (A : Type) (sample_row : A),
      detect_movies_schema sample_row
      = [ (str "id", str "INTEGER PRIMARY KEY");
          (str "title", str "TEXT NOT NULL");
          (str "year", str "INTEGER");
          (str "genres", str "TEXT") ]
      /\ detect_ratings_schema sample_row
         = [ (str "id", str "INTEGER PRIMARY KEY");
             (str "user_id", str "INTEGER NOT NULL");
             (str "movie_id", str "INTEGER NOT NULL");
             (str "rating", str "REAL NOT NULL");
             (str "timestamp", str "INTEGER NOT NULL") ]
      /\ detect_tags_schema sample_row
         = [ (str "id", str "INTEGER PRIMARY KEY");
             (str "user_id", str "INTEGER NOT NULL");
             (str "movie_id", str "INTEGER NOT NULL");
             (str "tag", str "TEXT NOT NULL");
             (str "timestamp", str "INTEGER NOT NULL") ]
      /\ detect_users_schema sample_row
         = [ (str "id", str "INTEGER PRIMARY KEY");
             (str "name", str "TEXT NOT NULL");
             (str "email", str "TEXT NOT NULL");
             (str "gender", str "TEXT");
             (str "register_date", str "TEXT NOT NULL");
             (str "occupation", str "TEXT") ]
      /\ generate_create_table_sql (str "movies")
           (detect_movies_schema sample_row)
         = text [ "DROP TABLE IF EXISTS movies;";
                  "CREATE TABLE movies (";
                  "    id INTEGER PRIMARY KEY,";
                  "    title TEXT NOT NULL,";
                  "    year INTEGER,";
                  "    genres TEXT";
                  ");" ]
      /\ generate_create_table_sql (str "ratings")
           (detect_ratings_schema sample_row)
         = text [ "DROP TABLE IF EXISTS ratings;";
                  "CREATE TABLE ratings (";
                  "    id INTEGER PRIMARY KEY,";
                  "    user_id INTEGER NOT NULL,";
                  "    movie_id INTEGER NOT NULL,";
                  "    rating REAL NOT NULL,";
                  "    timestamp INTEGER NOT NULL";
                  ");" ]
      /\ generate_create_table_sql (str "tags")
           (detect_tags_schema sample_row)
         = text [ "DROP TABLE IF EXISTS tags;";
                  "CREATE TABLE tags (";
                  "    id INTEGER PRIMARY KEY,";
                  "    user_id INTEGER NOT NULL,";
                  "    movie_id INTEGER NOT NULL,";
                  "    tag TEXT NOT NULL,";
                  "    timestamp INTEGER NOT NULL";
                  ");" ]
      /\ generate_create_table_sql (str "users")
           (detect_users_schema sample_row)
         = text [ "DROP TABLE IF EXISTS users;";
                  "CREATE TABLE users (";
                  "    id INTEGER PRIMARY KEY,";
                  "    name TEXT NOT NULL,";
                  "    email TEXT NOT NULL,";
                  "    gender TEXT,";
                  "    register_date TEXT NOT NULL,";
                  "    occupation TEXT";
                  ");" ].
Proof.
  intros A sample_row. repeat split; reflexivity.
Qed.

(** ** The Title Parser *)

Lemma drop_while_head (p : ascii -> bool) (s : pystr) (c : ascii) (r : pystr) :
  drop_while p s = c :: r -> p c = false.
Proof.
  induction s as [|a t IH]; simpl; [discriminate|].
  destruct (p a) eqn:E; [exact IH|].
  intros H. injection H as -> _. exact E.
Qed.

(** A stripped string does not end with a blank. *)
Lemma strip_last_not_space (raw : pystr) (c : ascii) (r : pystr) :
  rev (strip raw) = c :: r -> isspace c = false.
Proof.
  unfold strip, rstrip. rewrite rev_involutive. apply drop_while_head.
Qed.

Lemma match_spaces_end_spec (s : pystr) (n : nat) :
  match_spaces_end s = Some n -> forallb isspace s = true /\ n = length s.
Proof.
  revert n. induction s as [|c t IH]; intros n H.
  - injection H as <-. split; reflexivity.
  - cbn [match_spaces_end] in H. destruct (isspace c) eqn:Ec.
    + destruct (match_spaces_end t) as [k|] eqn:Et.
      * injection H as <-. destruct (IH k eq_refl) as [Hf ->].
        cbn [forallb length]. rewrite Ec, Hf. split; reflexivity.
      * destruct t as [|c' t']; [discriminate Et|].
        simpl in H. discriminate H.
    + destruct t as [|c' t']; simpl in H; [|discriminate H].
      destruct (ascii_eqb c NL) eqn:En; [|discriminate H].
      apply ascii_eqb_eq in En. subst c. discriminate Ec.
Qed.

Lemma match_spaces_end_all (s : pystr) :
  forallb isspace s = true -> match_spaces_end s = Some (length s).
Proof.
  induction s as [|c t IH]; [reflexivity|].
  cbn [forallb]. intros H. apply andb_prop in H as [Hc Ht].
  cbn [match_spaces_end]. rewrite Hc, (IH Ht). reflexivity.
Qed.

(** What a match of the pattern at the start of [s] looks like. *)
Lemma year_match_here_spec (s g : pystr) (n : nat) :
  year_match_here s = Some (g, n) ->
  exists d1 d2 d3 d4 ws,
    s = LPAREN :: d1 :: d2 :: d3 :: d4 :: RPAREN :: ws
    /\ g = [d1; d2; d3; d4]
    /\ isdigit d1 = true /\ isdigit d2 = true
    /\ isdigit d3 = true /\ isdigit d4 = true
    /\ forallb isspace ws = true /\ n = (6 + length ws)%nat.
Proof.
  unfold year_match_here.
  destruct s as [|p [|d1 [|d2 [|d3 [|d4 [|q ws]]]]]]; try discriminate.
  destruct (ascii_eqb p LPAREN) eqn:Ep; [|discriminate].
  destruct (isdigit d1) eqn:E1; [|discriminate].
  destruct (isdigit d2) eqn:E2; [|discriminate].
  destruct (isdigit d3) eqn:E3; [|discriminate].
  destruct (isdigit d4) eqn:E4; [|discriminate].
  destruct (ascii_eqb q RPAREN) eqn:Eq; [|discriminate].
  cbn [andb].
  destruct (match_spaces_end ws) as [k|] eqn:Ew; [|discriminate].
  intros H. injection H as <- <-.
  apply ascii_eqb_eq in Ep, Eq. subst p q.
  destruct (match_spaces_end_spec _ _ Ew) as [Hf ->].
  exists d1, d2, d3, d4, ws. repeat split; assumption.
Qed.

Lemma year_match_here_year (d1 d2 d3 d4 : ascii) :
  isdigit d1 = true -> isdigit d2 = true ->
  isdigit d3 = true -> isdigit d4 = true ->
  year_match_here (year_text d1 d2 d3 d4) = Some ([d1; d2; d3; d4], 6%nat).
Proof.
  intros H1 H2 H3 H4. unfold year_text, year_match_here.
  rewrite H1, H2, H3, H4, !ascii_eqb_refl. reflexivity.
Qed.

(** Before a year that ends the string, the pattern matches nowhere. *)
Lemma year_match_here_before (c : ascii) (pre : pystr) (d1 d2 d3 d4 : ascii) :
  year_match_here (c :: pre ++ year_text d1 d2 d3 d4) = None.
Proof.
  destruct (year_match_here (c :: pre ++ year_text d1 d2 d3 d4))
    as [[g n]|] eqn:E; [|reflexivity].
  exfalso.
  apply year_match_here_spec in E.
  destruct E as (e1 & e2 & e3 & e4 & ws & Hs & _ & _ & _ & _ & _ & Hw & _).
  apply (f_equal (@rev ascii)) in Hs.
  change (c :: pre ++ year_text d1 d2 d3 d4)
    with ((c :: pre) ++ year_text d1 d2 d3 d4) in Hs.
  rewrite rev_app_distr in Hs.
  change (LPAREN :: e1 :: e2 :: e3 :: e4 :: RPAREN :: ws)
    with (year_text e1 e2 e3 e4 ++ ws) in Hs.
  rewrite rev_app_distr in Hs.
  destruct (rev ws) as [|w rw] eqn:Er.
  - apply (f_equal (@length ascii)) in Hs.
    cbn in Hs. rewrite length_app, length_rev in Hs. cbn in Hs. lia.
  - cbn in Hs. injection Hs as Hq _.
    assert (Hin : In w ws).
    { apply in_rev. rewrite Er. left. reflexivity. }
    rewrite forallb_forall in Hw. specialize (Hw w Hin).
    subst w. discriminate Hw.
Qed.

Lemma year_search_suffix (pre : pystr) (d1 d2 d3 d4 : ascii) :
  isdigit d1 = true -> isdigit d2 = true ->
  isdigit d3 = true -> isdigit d4 = true ->
  year_search (pre ++ year_text d1 d2 d3 d4) = Some ([d1; d2; d3; d4], 6%nat).
Proof.
  intros H1 H2 H3 H4. induction pre as [|c pre IH].
  - cbn [app]. unfold year_text at 1. cbn [year_search].
    change (year_match_here [LPAREN; d1; d2; d3; d4; RPAREN])
      with (year_match_here (year_text d1 d2 d3 d4)).
    rewrite year_match_here_year by assumption. reflexivity.
  - cbn [app year_search]. rewrite year_match_here_before. exact IH.
Qed.

Lemma year_sub_suffix (pre : pystr) (d1 d2 d3 d4 : ascii) :
  isdigit d1 = true -> isdigit d2 = true ->
  isdigit d3 = true -> isdigit d4 = true ->
  year_sub (pre ++ year_text d1 d2 d3 d4) = pre.
Proof.
  intros H1 H2 H3 H4. unfold year_sub. induction pre as [|c pre IH].
  - cbn [app]. unfold year_text at 1. cbn [year_sub_from].
    change (year_match_here [LPAREN; d1; d2; d3; d4; RPAREN])
      with (year_match_here (year_text d1 d2 d3 d4)).
    rewrite year_match_here_year by assumption. reflexivity.
  - cbn [app year_sub_from]. rewrite year_match_here_before, IH.
    reflexivity.
Qed.

(** A match found by the search sits somewhere in the string. *)
Lemma year_search_spec (s g : pystr) (n : nat) :
  year_search s = Some (g, n) ->
  exists pre rest, s = pre ++ rest /\ year_match_here rest = Some (g, n).
Proof.
  induction s as [|c t IH]; cbn [year_search].
  - destruct (year_match_here []) eqn:E; [|discriminate].
    intros H. injection H as ->. exists [], []. split; [reflexivity|exact E].
  - destruct (year_match_here (c :: t)) as [m|] eqn:E.
    + intros H. injection H as ->. exists [], (c :: t).
      split; [reflexivity|exact E].
    + intros H. destruct (IH H) as (pre & rest & -> & Hm).
      exists (c :: pre), rest. split; [reflexivity|exact Hm].
Qed.

Lemma year_suffix_spec (t pre ds : pystr) :
  year_suffix t = Some (pre, ds) ->
  exists d1 d2 d3 d4,
    t = pre ++ year_text d1 d2 d3 d4 /\ ds = [d1; d2; d3; d4]
    /\ isdigit d1 = true /\ isdigit d2 = true
    /\ isdigit d3 = true /\ isdigit d4 = true.
Proof.
  unfold year_suffix.
  destruct (rev t) as [|q [|d4 [|d3 [|d2 [|d1 [|p before]]]]]] eqn:Er;
    try discriminate.
  destruct (ascii_eqb p LPAREN) eqn:Ep; [|discriminate].
  destruct (isdigit d1) eqn:E1; [|discriminate].
  destruct (isdigit d2) eqn:E2; [|discriminate].
  destruct (isdigit d3) eqn:E3; [|discriminate].
  destruct (isdigit d4) eqn:E4; [|discriminate].
  destruct (ascii_eqb q RPAREN) eqn:Eq; [|discriminate].
  cbn [andb]. intros H. injection H as <- <-.
  apply ascii_eqb_eq in Ep, Eq. subst p q.
  exists d1, d2, d3, d4. repeat split; try assumption.
  rewrite <- (rev_involutive t), Er. cbn [rev]. unfold year_text.
  rewrite <- !app_assoc. reflexivity.
Qed.

Lemma year_suffix_of_year (pre : pystr) (d1 d2 d3 d4 : ascii) :
  isdigit d1 = true -> isdigit d2 = true ->
  isdigit d3 = true -> isdigit d4 = true ->
  year_suffix (pre ++ year_text d1 d2 d3 d4) = Some (pre, [d1; d2; d3; d4]).
Proof.
  intros H1 H2 H3 H4. unfold year_suffix.
  rewrite rev_app_distr. cbn [year_text rev app].
  rewrite H1, H2, H3, H4, !ascii_eqb_refl, rev_involutive. reflexivity.
Qed.

Lemma isdigit_not_num_space (c : ascii) :
  isdigit c = true -> num_space c = false.
Proof.
  unfold isdigit, num_space. intros H.
  apply andb_prop in H as [H1 H2].
  apply N.leb_le in H1, H2.
  repeat match goal with
         | |- context [(?a <=? ?b)%N] =>
             destruct (N.leb_spec a b)
         | |- context [(?a =? ?b)%N] =>
             destruct (N.eqb_spec a b)
         end; cbn; try reflexivity; lia.
Qed.

Lemma isdigit_not_sign (c : ascii) :
  isdigit c = true -> ascii_eqb c MINUS = false /\ ascii_eqb c PLUS = false
                      /\ ascii_eqb c UNDERSCORE = false.
Proof.
  intros H. repeat split; apply ascii_eqb_neq; intros ->; discriminate H.
Qed.

(** [int] of four digits is their decimal value. *)
Lemma int_of_str_four_digits (d1 d2 d3 d4 : ascii) :
  isdigit d1 = true -> isdigit d2 = true ->
  isdigit d3 = true -> isdigit d4 = true ->
  int_of_str [d1; d2; d3; d4] = Ok (digits_value [d1; d2; d3; d4]).
Proof.
  intros H1 H2 H3 H4. unfold int_of_str, strip_num.
  cbn [drop_while]. rewrite (isdigit_not_num_space _ H1).
  cbn [rev app drop_while]. rewrite (isdigit_not_num_space _ H4).
  cbn [rev app]. unfold split_sign.
  destruct (isdigit_not_sign _ H1) as (-> & -> & _).
  cbn [int_body]. rewrite H1, H2, H3, H4. reflexivity.
Qed.

(** C1.  [extract_year_and_clean_title] on [None] gives [(None, None)].  On
    a string it trims the string; when the trimmed string ends with a year
    in parentheses (four digits), the result is the integer year and the
    text before the year with its trailing blanks removed and then one
    trailing comma, with the blanks before it, removed; otherwise the
    result is the trimmed string and no year.  The three titles of the
    specification give the results it lists. *)
Theorem extract_year_and_clean_title_spec :
  extract_year_and_clean_title None = (None, None)
  /\ (forall raw : pystr,
         extract_year_and_clean_title (Some raw)
         = match year_suffix (strip raw) with
           | Some (before, digits) =>
               (Some (let title := rstrip before in
                      if endswith [COMMA] title
                      then rstrip (removelast title)
                      else title),
                Some (digits_value digits))
           | None => (Some (strip raw), None)
           end)
  /\ extract_year_and_clean_title (Some (str "Toy Story (1995)"))
     = (Some (str "Toy Story"), Some 1995%Z)
  /\ extract_year_and_clean_title (Some (str "Je, tu, il, elle (1974)"))
     = (Some (str "Je, tu, il, elle"), Some 1974%Z)
  /\ extract_year_and_clean_title (Some (str "No Year Movie"))
     = (Some (str "No Year Movie"), None)
  /\ extract_year_and_clean_title (Some (str "Title, The (1999)"))
     = (Some (str "Title, The"), Some 1999%Z).
Proof.
  split; [reflexivity|].
  split; [|repeat split; reflexivity].
  intros raw. unfold extract_year_and_clean_title.
  destruct (year_suffix (strip raw)) as [[before digits]|] eqn:Ey.
  - apply year_suffix_spec in Ey.
    destruct Ey as (d1 & d2 & d3 & d4 & Ht & -> & H1 & H2 & H3 & H4).
    rewrite Ht, year_search_suffix, year_sub_suffix by assumption.
    rewrite int_of_str_four_digits by assumption. reflexivity.
  - destruct (year_search (strip raw)) as [[g n]|] eqn:Es; [|reflexivity].
    exfalso.
    apply year_search_spec in Es. destruct Es as (pre & rest & Ht & Hm).
    apply year_match_here_spec in Hm.
    destruct Hm as (d1 & d2 & d3 & d4 & ws & -> & _ & H1 & H2 & H3 & H4 & Hw & _).
    destruct (rev ws) as [|w rw] eqn:Er.
    + apply (f_equal (@rev ascii)) in Er. rewrite rev_involutive in Er.
      cbn in Er. subst ws.
      change (LPAREN :: d1 :: d2 :: d3 :: d4 :: [RPAREN])
        with (year_text d1 d2 d3 d4) in Ht.
      rewrite Ht, year_suffix_of_year in Ey by assumption. discriminate Ey.
    + assert (Hl : rev (strip raw) = w :: rw ++ rev (year_text d1 d2 d3 d4)
                                       ++ rev pre).
      { rewrite Ht.
        change (LPAREN :: d1 :: d2 :: d3 :: d4 :: RPAREN :: ws)
          with (year_text d1 d2 d3 d4 ++ ws).
        rewrite !rev_app_distr, Er, <- app_assoc. reflexivity. }
      apply strip_last_not_space in Hl.
      assert (Hin : In w ws).
      { apply in_rev. rewrite Er. left. reflexivity. }
      rewrite forallb_forall in Hw. rewrite (Hw w Hin) in Hl. discriminate Hl.
Qed.

(** ** Numbers: what int accepts, float accepts *)

Lemma drop_while_split (p : ascii -> bool) (s : pystr) :
  exists ws, s = ws ++ drop_while p s /\ forallb p ws = true.
Proof.
  induction s as [|c t (ws & Ht & Hw)].
  - exists []. split; reflexivity.
  - cbn [drop_while]. destruct (p c) eqn:E.
    + exists (c :: ws). split; [cbn; congruence|cbn; rewrite E; exact Hw].
    + exists []. split; reflexivity.
Qed.

Lemma drop_while_stop (p : ascii -> bool) (c : ascii) (t : pystr) :
  p c = false -> drop_while p (c :: t) = c :: t.
Proof. intros H. cbn. rewrite H. reflexivity. Qed.

Lemma drop_while_skip (p : ascii -> bool) (ws s : pystr) :
  forallb p ws = true -> drop_while p (ws ++ s) = drop_while p s.
Proof.
  induction ws as [|c t IH]; intros H; [reflexivity|].
  cbn [forallb] in H. apply andb_prop in H as [Hc Ht].
  cbn [app drop_while]. rewrite Hc. apply IH, Ht.
Qed.

Lemma forallb_rev {A : Type} (p : A -> bool) (l : list A) :
  forallb p (rev l) = forallb p l.
Proof.
  induction l as [|a t IH]; [reflexivity|].
  cbn [rev forallb]. rewrite forallb_app, IH. cbn. 
  rewrite andb_true_r. apply andb_comm.
Qed.

(** What [strip_num] leaves stands in the string between two runs of
    blanks. *)
Lemma strip_num_split (s : pystr) :
  exists ws1 ws2,
    s = ws1 ++ strip_num s ++ ws2
    /\ forallb num_space ws1 = true /\ forallb num_space ws2 = true.
Proof.
  unfold strip_num.
  destruct (drop_while_split num_space s) as (ws1 & H1 & Hw1).
  destruct (drop_while_split num_space (rev (drop_while num_space s)))
    as (ws2 & H2 & Hw2).
  exists ws1, (rev ws2). repeat split.
  - rewrite H1 at 1. f_equal.
    rewrite <- (rev_involutive (drop_while num_space s)) at 1.
    rewrite H2 at 1. rewrite rev_app_distr. reflexivity.
  - exact Hw1.
  - rewrite forallb_rev. exact Hw2.
Qed.

(** A string that neither starts nor ends with a blank is what
    [strip_num] leaves of it, whatever blanks stand around it. *)
Lemma strip_num_core (ws1 ws2 t : pystr) (a z : ascii) (m r : pystr) :
  t = a :: m -> rev t = z :: r ->
  num_space a = false -> num_space z = false ->
  forallb num_space ws1 = true -> forallb num_space ws2 = true ->
  strip_num (ws1 ++ t ++ ws2) = t.
Proof.
  intros Ht Hr Ha Hz H1 H2. unfold strip_num.
  rewrite drop_while_skip by exact H1.
  assert (E : drop_while num_space (t ++ ws2) = t ++ ws2).
  { rewrite Ht. cbn [app]. apply drop_while_stop, Ha. }
  rewrite E, rev_app_distr.
  rewrite drop_while_skip by (rewrite forallb_rev; exact H2).
  rewrite Hr, drop_while_stop by exact Hz.
  rewrite <- Hr. apply rev_involutive.
Qed.

Lemma num_space_not_underscore (c : ascii) :
  num_space c = true -> is_underscore c = false.
Proof.
  intros H. unfold is_underscore. apply ascii_eqb_neq. intros ->.
  discriminate H.
Qed.

Lemma remove_underscores_plain (s : pystr) :
  forallb (fun c => negb (is_underscore c)) s = true ->
  remove_underscores s = s.
Proof.
  induction s as [|c t IH]; intros H; [reflexivity|].
  cbn [forallb] in H. apply andb_prop in H as [Hc Ht].
  cbn [remove_underscores filter]. fold (is_underscore c). rewrite Hc.
  f_equal. apply IH, Ht.
Qed.

Lemma blanks_plain (ws : pystr) :
  forallb num_space ws = true ->
  forallb (fun c => negb (is_underscore c)) ws = true.
Proof.
  intros H. apply forallb_forall. intros c Hc.
  rewrite forallb_forall in H.
  rewrite (num_space_not_underscore c (H c Hc)). reflexivity.
Qed.

(** Over characters that are no underscores the check only passes the
    last character on. *)
Lemma underscores_ok_plain (pre rest : pystr) (prev : option ascii) :
  forallb (fun c => negb (is_underscore c)) pre = true ->
  match prev with Some p => is_underscore p = false | None => True end ->
  underscores_ok prev (pre ++ rest)
  = underscores_ok (match rev pre with c :: _ => Some c | [] => prev end) rest.
Proof.
  revert prev. induction pre as [|c t IH]; intros prev Hpre Hprev.
  - reflexivity.
  - cbn [forallb] in Hpre. apply andb_prop in Hpre as [Hc Ht].
    apply negb_true_iff in Hc.
    cbn [app underscores_ok]. fold (is_underscore c). rewrite Hc.
    assert (E : match prev with
                | Some p => negb (ascii_eqb p UNDERSCORE) || isdigit c
                | None => true
                end = true).
    { destruct prev as [p|]; [|reflexivity].
      fold (is_underscore p). rewrite Hprev. reflexivity. }
    rewrite E. cbn [andb]. rewrite (IH (Some c) Ht Hc).
    cbn [rev]. destruct (rev t) as [|x r]; reflexivity.
Qed.

Lemma remove_underscores_keep (c : ascii) (t : pystr) :
  ascii_eqb c UNDERSCORE = false ->
  remove_underscores (c :: t) = c :: remove_underscores t.
Proof. intros H. unfold remove_underscores. cbn [filter]. rewrite H. reflexivity. Qed.

Lemma remove_underscores_drop (c : ascii) (t : pystr) :
  ascii_eqb c UNDERSCORE = true ->
  remove_underscores (c :: t) = remove_underscores t.
Proof. intros H. unfold remove_underscores. cbn [filter]. rewrite H. reflexivity. Qed.

(** The digits of an integer literal pass the check of the float parser,
    and without their underscores they are digits only. *)
Lemma int_body_float (body : pystr) (pd : bool) (acc z : Z)
    (prev : option ascii) (tail : pystr) :
  int_body pd acc body = Some z ->
  (pd = true -> exists p, prev = Some p /\ isdigit p = true) ->
  (forall p, isdigit p = true -> underscores_ok (Some p) tail = true) ->
  underscores_ok prev (body ++ tail) = true
  /\ forallb isdigit (remove_underscores body) = true
  /\ (pd = false -> exists c m, remove_underscores body = c :: m
                                /\ isdigit c = true).
Proof.
  revert pd acc prev. induction body as [|c t IH]; intros pd acc prev Hb Hp Ht.
  - cbn [int_body] in Hb. destruct pd; [|discriminate Hb].
    destruct (Hp eq_refl) as (p & -> & Hd). cbn [app].
    repeat split; try discriminate. apply Ht, Hd.
  - cbn [int_body] in Hb. destruct (isdigit c) eqn:Ed.
    + assert (Hu : ascii_eqb c UNDERSCORE = false).
      { apply ascii_eqb_neq. intros ->. discriminate Ed. }
      destruct (IH true _ (Some c) Hb) as (H1 & H2 & _).
      { intros _. exists c. split; [reflexivity|exact Ed]. }
      { exact Ht. }
      rewrite (remove_underscores_keep c t Hu).
      cbn [app underscores_ok forallb]. rewrite Hu, Ed, H1, H2.
      repeat split.
      * destruct prev as [p|]; [|reflexivity].
        rewrite orb_true_r. reflexivity.
      * intros _. exists c, (remove_underscores t).
        split; [reflexivity|exact Ed].
    + destruct (ascii_eqb c UNDERSCORE) eqn:Eu; [|discriminate Hb].
      destruct pd; [|discriminate Hb].
      destruct (Hp eq_refl) as (p & -> & Hd).
      destruct (IH false _ (Some c) Hb) as (H1 & H2 & _).
      { discriminate. }
      { exact Ht. }
      rewrite (remove_underscores_drop c t Eu).
      cbn [app underscores_ok]. rewrite Eu, Hd, H1.
      repeat split; try discriminate. exact H2.
Qed.

Lemma remove_underscores_app (a b : pystr) :
  remove_underscores (a ++ b) = remove_underscores a ++ remove_underscores b.
Proof. apply filter_app. Qed.

Lemma underscores_ok_all_plain (s : pystr) (prev : option ascii) :
  forallb (fun c => negb (is_underscore c)) s = true ->
  match prev with Some p => is_underscore p = false | None => True end ->
  underscores_ok prev s = true.
Proof.
  intros Hs Hp. rewrite <- (app_nil_r s).
  rewrite (underscores_ok_plain s [] prev Hs Hp).
  destruct (rev s) as [|c r] eqn:Er.
  - cbn [underscores_ok]. destruct prev as [p|]; [|reflexivity].
    unfold is_underscore in Hp. rewrite Hp. reflexivity.
  - cbn [underscores_ok].
    assert (Hin : In c s) by (apply in_rev; rewrite Er; left; reflexivity).
    rewrite forallb_forall in Hs. specialize (Hs c Hin).
    unfold is_underscore in Hs. exact Hs.
Qed.

Lemma isdigit_not_underscore (c : ascii) :
  isdigit c = true -> is_underscore c = false.
Proof.
  intros H. unfold is_underscore. apply ascii_eqb_neq. intros ->.
  discriminate H.
Qed.

Lemma tolower_c_digit (c : ascii) : isdigit c = true -> tolower_c c = c.
Proof.
  unfold isdigit, tolower_c. intros H. apply andb_prop in H as [H1 H2].
  apply N.leb_le in H1, H2.
  destruct (N.leb_spec 65 (code c)); [lia|]. reflexivity.
Qed.

Lemma span_digits_all (ds : pystr) :
  forallb isdigit ds = true -> span_digits ds = (ds, []).
Proof.
  induction ds as [|c t IH]; intros H; [reflexivity|].
  cbn [forallb] in H. apply andb_prop in H as [Hc Ht].
  cbn [span_digits]. rewrite Hc, (IH Ht). reflexivity.
Qed.

(** Digits alone are a decimal literal. *)
Lemma parse_decimal_digits (d : ascii) (m : pystr) :
  forallb isdigit (d :: m) = true ->
  parse_decimal (d :: m) = Some (digits_value (d :: m), 0%Z).
Proof.
  intros H. unfold parse_decimal. rewrite (span_digits_all _ H).
  rewrite app_nil_r. reflexivity.
Qed.

(** Digits alone are none of the words [inf], [infinity], [nan]. *)
Lemma digits_no_word (d : ascii) (m : pystr) (w : string) (c : ascii)
    (rest : pystr) :
  isdigit d = true -> str w = c :: rest -> isdigit c = false ->
  pystr_eqb (map tolower_c (d :: m)) (str w) = false.
Proof.
  intros Hd Hw Hc. destruct (pystr_eqb _ _) eqn:E; [|reflexivity].
  apply pystr_eqb_eq in E. rewrite Hw in E. cbn [map] in E.
  injection E as E _. rewrite (tolower_c_digit d Hd) in E. congruence.
Qed.

(** What [float] does with a sign followed by digits, between blanks. *)
Lemma float_of_signed_digits (neg : bool) (sign ds : pystr) (d : ascii)
    (m : pystr) :
  ds = d :: m -> forallb isdigit ds = true ->
  split_sign (sign ++ ds) = (neg, ds) ->
  exists f,
    (let '(neg', body) := split_sign (sign ++ ds) in
     let word := map tolower_c body in
     if pystr_eqb word (str "inf") || pystr_eqb word (str "infinity")
     then Ok (S754_infinity neg')
     else if pystr_eqb word (str "nan") then Ok S754_nan
     else match parse_decimal body with
          | Some (m, e10) => Ok (float_of_decimal neg' m e10)
          | None => Raise ValueError
          end) = Ok f.
Proof.
  intros -> Hds Hs. rewrite Hs.
  assert (Hd : isdigit d = true).
  { cbn [forallb] in Hds. apply andb_prop in Hds as [H _]. exact H. }
  cbv zeta.
  rewrite (digits_no_word d m "inf" (chr 105) (str "nf") Hd eq_refl eq_refl).
  rewrite (digits_no_word d m "infinity" (chr 105) (str "nfinity") Hd
             eq_refl eq_refl).
  rewrite (digits_no_word d m "nan" (chr 110) (str "an") Hd eq_refl eq_refl).
  cbn [orb]. rewrite (parse_decimal_digits d m Hds).
  eexists. reflexivity.
Qed.

Lemma forallb_last {A : Type} (p : A -> bool) (l : list A) (a : A) (m : list A) :
  l = a :: m -> forallb p l = true ->
  exists z r, rev l = z :: r /\ p z = true.
Proof.
  intros Hl Hp. destruct (rev l) as [|z r] eqn:Er.
  - apply (f_equal (@rev A)) in Er. rewrite rev_involutive in Er.
    cbn in Er. congruence.
  - exists z, r. split; [reflexivity|].
    rewrite forallb_forall in Hp. apply Hp, in_rev. rewrite Er.
    left. reflexivity.
Qed.

(** Every string [int] accepts, [float] accepts too. *)
Lemma int_of_str_float_of_str (s : pystr) (z : Z) :
  int_of_str s = Ok z -> exists f, float_of_str s = Ok f.
Proof.
  unfold int_of_str. intros Hi.
  destruct (strip_num_split s) as (ws1 & ws2 & Hs & Hw1 & Hw2).
  destruct (split_sign (strip_num s)) as [neg body] eqn:Esign.
  destruct (int_body false 0 body) as [z'|] eqn:Eb; [|discriminate Hi].
  assert (exists sign,
             strip_num s = sign ++ body
             /\ forallb (fun c => negb (is_underscore c)) sign = true
             /\ (forall ds d m, ds = d :: m -> isdigit d = true ->
                                split_sign (sign ++ ds) = (neg, ds))
             /\ (forall ds d m, ds = d :: m -> isdigit d = true ->
                                exists a k, sign ++ ds = a :: k
                                            /\ num_space a = false))
    as (sign & Ht & Hplain & Hsplit & Hfirst).
  { unfold split_sign in Esign.
    destruct (strip_num s) as [|c t] eqn:Et.
    - injection Esign as <- <-. exists []. repeat split.
      + intros ds d m -> Hd. unfold split_sign. cbn [app].
        destruct (isdigit_not_sign d Hd) as (-> & -> & _). reflexivity.
      + intros ds d m -> Hd. exists d, m. split; [reflexivity|].
        apply isdigit_not_num_space, Hd.
    - destruct (ascii_eqb c MINUS) eqn:Em.
      + injection Esign as <- <-. apply ascii_eqb_eq in Em. subst c.
        exists [MINUS]. repeat split.
        intros ds d m _ _. exists MINUS, ds. split; reflexivity.
      + destruct (ascii_eqb c PLUS) eqn:Ep.
        * injection Esign as <- <-. apply ascii_eqb_eq in Ep. subst c.
          exists [PLUS]. repeat split.
          intros ds d m _ _. exists PLUS, ds. split; reflexivity.
        * injection Esign as <- <-. exists []. repeat split.
          -- intros ds d m -> Hd. unfold split_sign. cbn [app].
             destruct (isdigit_not_sign d Hd) as (-> & -> & _). reflexivity.
          -- intros ds d m -> Hd. exists d, m. split; [reflexivity|].
             apply isdigit_not_num_space, Hd. }
  destruct (int_body_float body false 0 z'
              (match rev (ws1 ++ sign) with c :: _ => Some c | [] => None end)
              ws2 Eb) as (Hu & Hds & Hne).
  { discriminate. }
  { intros p Hp. apply underscores_ok_all_plain.
    - apply blanks_plain, Hw2.
    - apply isdigit_not_underscore, Hp. }
  destruct (Hne eq_refl) as (d & m & Hdm & Hd).
  assert (Hpre : forallb (fun c => negb (is_underscore c)) (ws1 ++ sign) = true).
  { rewrite forallb_app, (blanks_plain ws1 Hw1), Hplain. reflexivity. }
  assert (Es : s = (ws1 ++ sign) ++ body ++ ws2).
  { rewrite Hs at 1. rewrite Ht, <- !app_assoc. reflexivity. }
  unfold float_of_str.
  assert (Eu : underscores_ok None s = true).
  { rewrite Es, (underscores_ok_plain (ws1 ++ sign) (body ++ ws2) None Hpre I).
    exact Hu. }
  rewrite Eu.
  assert (Er : remove_underscores s
               = ws1 ++ (sign ++ remove_underscores body) ++ ws2).
  { rewrite Es.
    rewrite (remove_underscores_app (ws1 ++ sign) (body ++ ws2)).
    rewrite (remove_underscores_app body ws2).
    rewrite (remove_underscores_plain _ Hpre).
    rewrite (remove_underscores_plain _ (blanks_plain ws2 Hw2)).
    rewrite <- !app_assoc. reflexivity. }
  rewrite Er.
  destruct (Hfirst _ d m Hdm Hd) as (a & k & Ha & Hna).
  destruct (forallb_last isdigit (remove_underscores body) d m Hdm Hds)
    as (zl & r & Hrev & Hzl).
  assert (Hrev' : rev (sign ++ remove_underscores body) = zl :: r ++ rev sign).
  { rewrite rev_app_distr, Hrev. reflexivity. }
  rewrite (strip_num_core ws1 ws2 (sign ++ remove_underscores body) a zl k
             (r ++ rev sign) Ha Hrev' Hna (isdigit_not_num_space zl Hzl)
             Hw1 Hw2).
  apply (float_of_signed_digits neg sign (remove_underscores body) d m Hdm Hds).
  apply (Hsplit _ d m Hdm Hd).
Qed.

(** ** The Value Coercer and generate_insert_sql *)

Lemma mapM_ok {A B : Type} (f : A -> result B) (l : list A) :
  (forall x, In x l -> exists y, f x = Ok y) ->
  exists ys, mapM f l = Ok ys
             /\ length ys = length l
             /\ forall i x, nth_error l i = Some x ->
                            exists y, nth_error ys i = Some y /\ f x = Ok y.
Proof.
  induction l as [|a t IH]; intros H.
  - exists []. repeat split. intros [|i] x Hx; discriminate Hx.
  - destruct (H a (or_introl eq_refl)) as [b Hb].
    destruct IH as (ys & Hys & Hlen & Hnth).
    { intros x Hx. apply H. right. exact Hx. }
    exists (b :: ys). cbn [mapM]. rewrite Hb. cbn [bind]. rewrite Hys.
    cbn [bind length]. repeat split; [congruence|].
    intros [|i] x Hx.
    + injection Hx as <-. exists b. split; [reflexivity|exact Hb].
    + apply Hnth. exact Hx.
Qed.

Lemma index_in (x : pystr) (l : list pystr) :
  In x l -> exists i, index x l = Ok i /\ (i < length l)%nat.
Proof.
  induction l as [|y t IH]; intros H; [destruct H|].
  cbn [index]. destruct (pystr_eqb y x) eqn:E.
  - exists O. split; [reflexivity|cbn; lia].
  - destruct H as [H|H].
    + subst y. rewrite pystr_eqb_refl in E. discriminate E.
    + destruct (IH H) as (i & Hi & Hlt). exists (S i). rewrite Hi.
      split; [reflexivity|cbn; lia].
Qed.

(** Among distinct names, a name is found at its own position. *)
Lemma index_nodup (l : list pystr) (i : nat) (x : pystr) :
  NoDup l -> nth_error l i = Some x -> index x l = Ok i.
Proof.
  intros Hnd. revert i. induction Hnd as [|y t Hnotin Hnd IH]; intros i Hi.
  - destruct i; discriminate Hi.
  - destruct i as [|i]; cbn [nth_error] in Hi.
    + injection Hi as ->. cbn [index]. rewrite pystr_eqb_refl. reflexivity.
    + cbn [index]. destruct (pystr_eqb y x) eqn:E.
      * apply pystr_eqb_eq in E. subst y. exfalso. apply Hnotin.
        eapply nth_error_In. exact Hi.
      * rewrite (IH i Hi). reflexivity.
Qed.

Lemma coerce_total (v : pyval) (ctype : pystr) :
  exists lit, coerce v ctype = Ok lit.
Proof.
  unfold coerce.
  destruct (none_or_empty v); [eexists; reflexivity|].
  destruct (contains (str "INTEGER") ctype); [eexists; reflexivity|].
  destruct (contains (str "REAL") ctype); eexists; reflexivity.
Qed.

Lemma coerce_none (ctype : pystr) : coerce PNone ctype = Ok NULL.
Proof. reflexivity. Qed.

Lemma cell_total (columns : list column) (r : list pyval) (col : column) :
  In col columns -> exists lit, cell (map fst columns) r col = Ok lit.
Proof.
  intros Hin. destruct col as [name ctype]. unfold cell.
  destruct (@index_in name (map fst columns)) as (idx & -> & _).
  { change name with (fst (name, ctype)). apply in_map. exact Hin. }
  cbn [bind]. destruct (idx <? length r)%nat eqn:E.
  - apply Nat.ltb_lt in E. unfold getitem.
    destruct (nth_error r idx) as [v|] eqn:Ev.
    + cbn [bind]. apply coerce_total.
    + apply nth_error_None in Ev. lia.
  - cbn [bind]. apply coerce_total.
Qed.

Lemma row_sql_total (columns : list column) (r : list pyval) :
  exists vals,
    mapM (cell (map fst columns) r) columns = Ok vals
    /\ length vals = length columns
    /\ row_sql columns (map fst columns) r
       = Ok (str "(" ++ join (str ", ") vals ++ str ")")
    /\ forall i col, nth_error columns i = Some col ->
         exists lit, nth_error vals i = Some lit
                     /\ cell (map fst columns) r col = Ok lit.
Proof.
  destruct (@mapM_ok _ _ (cell (map fst columns) r) columns)
    as (vals & Hv & Hlen & Hnth).
  { intros col Hin. apply cell_total. exact Hin. }
  exists vals. unfold row_sql. rewrite Hv. repeat split; assumption.
Qed.

Lemma generate_insert_sql_total (table : pystr) (columns : list column)
    (rows : list (list pyval)) :
  exists sql, generate_insert_sql table columns rows = Ok sql
              /\ (sql = [] <-> rows = []).
Proof.
  unfold generate_insert_sql.
  destruct (@mapM_ok _ _ (row_sql columns (map fst columns)) rows)
    as (vs & Hv & Hlen & _).
  { intros r _. destruct (row_sql_total columns r) as (vals & _ & _ & H & _).
    eexists. exact H. }
  rewrite Hv. cbn [bind]. destruct vs as [|v vs'].
  - exists []. split; [reflexivity|].
    destruct rows; [tauto|discriminate Hlen].
  - eexists. split; [reflexivity|]. destruct rows; [discriminate Hlen|].
    split; intros H; discriminate H.
Qed.

(** The value of a missing trailing field. *)
Lemma cell_missing (columns : list column) (r : list pyval) (i : nat)
    (col : column) :
  NoDup (map fst columns) -> nth_error columns i = Some col ->
  (length r <= i)%nat -> cell (map fst columns) r col = Ok NULL.
Proof.
  intros Hnd Hi Hlen. destruct col as [name ctype]. unfold cell.
  rewrite (@index_nodup (map fst columns) i name Hnd).
  - cbn [bind].
    destruct (Nat.ltb_spec i (length r)) as [Hlt|_]; [lia|].
    cbn [bind]. apply coerce_none.
  - rewrite nth_error_map. unfold column in Hi. rewrite Hi. reflexivity.
Qed.

Lemma schema_names_nodup (d : dataset) : NoDup (map fst (schema d)).
Proof.
  destruct d; cbn;
    repeat (constructor;
            [cbn; intros H;
             repeat (destruct H as [H|H]; [discriminate H|]); exact H|]);
    constructor.
Qed.



(** C8.  Every transformed movies row has exactly four values.  For a raw
    row of three fields they are the id, the title and the year the Title
    Parser makes of field 2, and the genres.  The raw row of the
    specification gives the INSERT row
    [(1, 'Toy Story', 1995, 'Adventure|Animation')]. *)
Theorem movie_row_four_values :
  (forall r : list pystr, length (movie_row r) = 4%nat)
  /\ (forall id title genres : pystr,
         movie_row [id; title; genres]
         = [ PStr id;
             of_opt_str (fst (extract_year_and_clean_title (Some title)));
             of_opt_int (snd (extract_year_and_clean_title (Some title)));
             PStr genres ])
  /\ movie_row [str "1"; str "Toy Story (1995)"; str "Adventure|Animation"]
     = [ PStr (str "1"); PStr (str "Toy Story"); PInt 1995;
         PStr (str "Adventure|Animation") ]
  /\ row_sql (detect_movies_schema tt) (map fst (detect_movies_schema tt))
       (movie_row [str "1"; str "Toy Story (1995)";
                   str "Adventure|Animation"])
     = Ok (str "(1, 'Toy Story', 1995, 'Adventure|Animation')")
  /\ generate_insert_sql (str "movies") (detect_movies_schema tt)
       [movie_row [str "1"; str "Toy Story (1995)";
                   str "Adventure|Animation"]]
     = Ok (text [ "INSERT INTO movies (id, title, year, genres) VALUES";
                  "(1, 'Toy Story', 1995, 'Adventure|Animation');" ]).
Proof.
  split; [|split; [|repeat split; vm_compute; reflexivity]].
  - intros r. unfold movie_row.
    destruct (extract_year_and_clean_title (item_or_none r 1)).
    reflexivity.
  - intros id title genres. unfold movie_row.
    change (item_or_none [id; title; genres] 1) with (Some title).
    destruct (extract_year_and_clean_title (Some title)). reflexivity.
Qed.

Lemma schema_real_not_integer (d : dataset) (name ctype : pystr) :
  In (name, ctype) (schema d) ->
  contains (str "REAL") ctype = true ->
  contains (str "INTEGER") ctype = false.
Proof.
  intros Hin Hr. destruct d; cbn [schema] in Hin;
    unfold detect_movies_schema, detect_ratings_schema, detect_tags_schema,
      detect_users_schema in Hin; cbn [In] in Hin;
    repeat (destruct Hin as [Hin|Hin];
            [injection Hin as <- <-;
             (reflexivity || (vm_compute in Hr; discriminate Hr))|]);
    destruct Hin.
Qed.





(** ** The Row Reader *)

Lemma is_newline_NL : is_newline NL = true.
Proof. reflexivity. Qed.

Lemma universal_newlines_no_cr (s : pystr) (b : bool) :
  forallb (fun c => negb (ascii_eqb c CR)) (universal_newlines b s) = true.
Proof.
  revert b. induction s as [|c t IH]; intros b; [reflexivity|].
  cbn [universal_newlines].
  destruct (ascii_eqb c CR) eqn:Ec.
  - cbn [forallb]. rewrite IH. reflexivity.
  - destruct (ascii_eqb c NL) eqn:En.
    + destruct b; [apply IH|]. cbn [forallb]. rewrite IH. reflexivity.
    + cbn [forallb]. rewrite Ec, IH. reflexivity.
Qed.

Lemma line_ok_app_plain (cur rest : pystr) :
  forallb (fun c => negb (is_newline c)) cur = true ->
  line_ok (cur ++ rest) = line_ok rest.
Proof.
  induction cur as [|c t IH]; intros H; [reflexivity|].
  cbn [forallb] in H. apply andb_prop in H as [Hc Ht].
  cbn [app line_ok]. apply negb_true_iff in Hc. rewrite Hc. apply IH, Ht.
Qed.

Lemma forallb_snoc {A : Type} (p : A -> bool) (l : list A) (x : A) :
  forallb p l = true -> p x = true -> forallb p (l ++ [x]) = true.
Proof.
  intros Hl Hx. rewrite forallb_app, Hl. cbn. rewrite Hx. reflexivity.
Qed.

Lemma split_lines_ok (s cur : pystr) :
  forallb (fun c => negb (ascii_eqb c CR)) s = true ->
  forallb (fun c => negb (is_newline c)) cur = true ->
  Forall (fun l => line_ok l = true) (split_lines cur s).
Proof.
  revert cur. induction s as [|c t IH]; intros cur Hs Hcur.
  - cbn [split_lines]. destruct cur as [|a cur']; constructor; [|constructor].
    rewrite <- (app_nil_r (a :: cur')), line_ok_app_plain by exact Hcur.
    reflexivity.
  - cbn [forallb] in Hs. apply andb_prop in Hs as [Hc Ht].
    cbn [split_lines]. destruct (ascii_eqb c NL) eqn:En.
    + constructor.
      * rewrite line_ok_app_plain by exact Hcur. reflexivity.
      * apply IH; [exact Ht|reflexivity].
    + apply IH; [exact Ht|].
      apply forallb_snoc; [exact Hcur|].
      unfold is_newline. rewrite En.
      apply negb_true_iff in Hc. rewrite Hc. reflexivity.
Qed.

(** The lines of a file are well formed. *)
Lemma file_lines_ok (content : pystr) :
  Forall (fun l => line_ok l = true) (file_lines content).
Proof.
  unfold file_lines. apply split_lines_ok; [|reflexivity].
  apply universal_newlines_no_cr.
Qed.

(** A character that is no newline never raises and never leads to the
    state that waits for the end of the line. *)
Lemma parse_process_char_plain (d : ascii) (self : reader) (c : ascii) :
  is_newline c = false -> not_eating self ->
  exists self', parse_process_char d self (Some c) = Ok self'
                /\ not_eating self'.
Proof.
  intros Hc Hs. unfold not_eating in *. unfold parse_process_char.
  destruct self as [fs f st]. cbn [state] in *.
  destruct st; rewrite ?Hc;
    try (exfalso; apply Hs; reflexivity);
    cbn [set_state parse_save_field parse_add_char state fields field];
    rewrite ?Hc;
    destruct (ascii_eqb c DQUOTE); destruct (ascii_eqb c d);
    eexists; (split; [reflexivity|cbn; discriminate]).
Qed.

(** The end-of-line mark closes the record or leaves the parser inside a
    quoted field. *)
Lemma parse_process_char_eol (d : ascii) (self : reader) :
  exists self', parse_process_char d self None = Ok self'
                /\ at_record_boundary self'
                /\ (state self <> IN_QUOTED_FIELD -> state self' = START_RECORD).
Proof.
  unfold parse_process_char, at_record_boundary.
  destruct self as [fs f st]. cbn [state].
  destruct st; eexists; (split; [reflexivity|]); cbn; split;
    try tauto; try (intros _; reflexivity); intros H; congruence.
Qed.

Lemma parse_process_char_newline (d : ascii) (self : reader) :
  not_eating self ->
  exists self', parse_process_char d self (Some NL) = Ok self'
                /\ (state self <> IN_QUOTED_FIELD ->
                    state self' <> IN_QUOTED_FIELD)
                /\ (state self = IN_QUOTED_FIELD ->
                    state self' = IN_QUOTED_FIELD).
Proof.
  intros Hs. unfold not_eating in Hs. unfold parse_process_char.
  destruct self as [fs f st]. cbn [state] in *.
  rewrite is_newline_NL. change (ascii_eqb NL DQUOTE) with false. cbv iota.
  destruct st; try (exfalso; apply Hs; reflexivity);
    destruct (ascii_eqb NL d); rewrite ?is_newline_NL;
    eexists; (split; [reflexivity|cbn; split; congruence]).
Qed.

(** A well-formed line never raises, and after it the parser is between
    records or inside a quoted field. *)
Lemma feed_line_ok (d : ascii) (l : pystr) (self : reader) :
  line_ok l = true -> not_eating self ->
  exists self', feed_line d self l = Ok self' /\ at_record_boundary self'.
Proof.
  revert self. induction l as [|c t IH]; intros self Hl Hs.
  - cbn [feed_line].
    destruct (parse_process_char_eol d self) as (s' & H & Hb & _).
    exists s'. split; assumption.
  - cbn [line_ok] in Hl. cbn [feed_line].
    destruct (is_newline c) eqn:Ec.
    + apply andb_prop in Hl as [Hn Ht].
      apply ascii_eqb_eq in Hn. subst c.
      destruct t; [|discriminate Ht].
      destruct (parse_process_char_newline d self Hs) as (s1 & -> & _ & _).
      cbn [bind feed_line].
      destruct (parse_process_char_eol d s1) as (s2 & H2 & Hb & _).
      exists s2. split; assumption.
    + destruct (parse_process_char_plain d self c Ec Hs) as (s1 & -> & Hs1).
      cbn [bind]. apply IH; assumption.
Qed.

Lemma at_record_boundary_not_eating (self : reader) :
  at_record_boundary self -> not_eating self.
Proof. unfold not_eating. intros [H|H]; rewrite H; discriminate. Qed.

(** The reader never raises on the lines of a file. *)
Lemma reader_rows_total (d : ascii) (lines : list pystr) (self : reader) :
  Forall (fun l => line_ok l = true) lines -> at_record_boundary self ->
  exists rows, reader_rows d self lines = Ok rows.
Proof.
  intros Hl. revert self. induction Hl as [|l rest Hok _ IH]; intros self Hs.
  - cbn [reader_rows].
    destruct (negb (is_empty (field self)) || in_quoted_field self);
      eexists; reflexivity.
  - cbn [reader_rows].
    destruct (feed_line_ok d l self Hok (at_record_boundary_not_eating self Hs))
      as (s1 & -> & Hb).
    cbn [bind]. destruct (in_start_record s1).
    + destruct (IH parse_reset (or_introl eq_refl)) as (rows & ->).
      eexists. reflexivity.
    + apply IH. exact Hb.
Qed.

Lemma contains_single_cons (x c : ascii) (t : pystr) :
  contains [x] (c :: t) = ascii_eqb x c || contains [x] t.
Proof. cbn [contains]. rewrite startswith_single. reflexivity. Qed.

Lemma ascii_eqb_sym (a b : ascii) : ascii_eqb a b = ascii_eqb b a.
Proof.
  unfold ascii_eqb. destruct (ascii_dec a b), (ascii_dec b a); congruence.
Qed.

(** A line without a quote character is one whole record. *)
Lemma feed_line_unquoted (d : ascii) (l : pystr) (self : reader) :
  line_ok l = true -> contains [DQUOTE] l = false -> unquoted self ->
  exists self', feed_line d self l = Ok self' /\ state self' = START_RECORD.
Proof.
  revert self. induction l as [|c t IH]; intros self Hl Hq Hs.
  - cbn [feed_line].
    destruct (parse_process_char_eol d self) as (s' & H & _ & Hb).
    exists s'. split; [exact H|]. apply Hb.
    destruct Hs as [H1|[H1|H1]]; rewrite H1; discriminate.
  - rewrite contains_single_cons in Hq. apply orb_false_elim in Hq as [Hc Hq].
    rewrite ascii_eqb_sym in Hc.
    cbn [line_ok] in Hl. cbn [feed_line].
    destruct (is_newline c) eqn:Ec.
    + apply andb_prop in Hl as [Hn Ht].
      apply ascii_eqb_eq in Hn. subst c.
      destruct t; [|discriminate Ht].
      assert (Hne : not_eating self).
      { unfold not_eating. destruct Hs as [H1|[H1|H1]]; rewrite H1;
          discriminate. }
      destruct (parse_process_char_newline d self Hne) as (s1 & -> & Hk & _).
      cbn [bind feed_line].
      destruct (parse_process_char_eol d s1) as (s2 & H2 & _ & Hb).
      exists s2. split; [exact H2|]. apply Hb, Hk.
      destruct Hs as [H1|[H1|H1]]; rewrite H1; discriminate.
    + assert (exists s1, parse_process_char d self (Some c) = Ok s1
                         /\ unquoted s1) as (s1 & -> & Hs1).
      { unfold parse_process_char, unquoted in *.
        destruct self as [fs f st]. cbn [state] in *.
        destruct Hs as [ -> | [ -> | -> ] ]; rewrite ?Ec, ?Hc;
          cbn [set_state parse_save_field parse_add_char state fields field];
          rewrite ?Ec, ?Hc;
          destruct (ascii_eqb c d); eexists;
          (split; [reflexivity|cbn; tauto]). }
      cbn [bind]. apply IH; assumption.
Qed.

Lemma keep_row_empty (row : list pystr) :
  keep_row row = false <-> empty_row row.
Proof.
  unfold keep_row, empty_row. split.
  - intros H. apply Forall_forall. intros col Hin.
    destruct row as [|a t]; [destruct Hin|].
    cbn [negb andb] in H.
    destruct (strip col) eqn:Ec; [reflexivity|]. exfalso.
    assert (existsb (fun col => negb (is_empty (strip col))) (a :: t) = true).
    { apply existsb_exists. exists col. split; [exact Hin|].
      rewrite Ec. reflexivity. }
    congruence.
  - intros H. destruct row as [|a t]; [reflexivity|].
    cbn [negb andb].
    destruct (existsb (fun col => negb (is_empty (strip col))) (a :: t))
      eqn:E; [|reflexivity].
    apply existsb_exists in E. destruct E as (col & Hin & Hc).
    rewrite Forall_forall in H. rewrite (H col Hin) in Hc. discriminate Hc.
Qed.

Lemma has_header_keyword (line : pystr) :
  has_header line = true
  <-> exists k, In k header_keywords /\ contains k (lower line) = true.
Proof. unfold has_header. apply existsb_exists. Qed.




(** ** The script assembler *)

(** The script is the join of the prologue, the four CREATE blocks, the
    INSERT blocks that are not empty, and COMMIT; an INSERT block is empty
    exactly when its dataset has no rows. *)
Lemma assemble_blocks (rows : dataset -> list (list pyval)) :
  exists ins : dataset -> pystr,
    (forall d, insert_block rows d = Ok (ins d))
    /\ (forall d, ins d = [] <-> rows d = [])
    /\ assemble_rows rows
       = Ok (join [NL; NL]
               (prologue ++ map create_block all_datasets
                  ++ filter nonempty (map ins all_datasets) ++ epilogue)).
Proof.
  pose (total := fun d =>
          generate_insert_sql_total (table_name d) (schema d) (rows d)).
  destruct (total Movies) as (i1 & H1 & E1).
  destruct (total Ratings) as (i2 & H2 & E2).
  destruct (total Tags) as (i3 & H3 & E3).
  destruct (total Users) as (i4 & H4 & E4).
  clear total.
  exists (fun d => match d with
                   | Movies => i1 | Ratings => i2 | Tags => i3 | Users => i4
                   end).
  split; [intros []; assumption|].
  split; [intros []; assumption|].
  unfold assemble_rows, assemble.
  change (@detect_movies_schema _ _) with (schema Movies).
  change (@detect_ratings_schema _ _) with (schema Ratings).
  change (@detect_tags_schema _ _) with (schema Tags).
  change (@detect_users_schema _ _) with (schema Users).
  cbn [table_name] in H1, H2, H3, H4.
  assert (N : forall (rs : list (list pyval)) (i : pystr),
             (i = [] <-> rs = []) -> rs <> [] -> is_empty i = false).
  { intros rs i E Hne. destruct i; [|reflexivity].
    exfalso. apply Hne, E. reflexivity. }
  destruct (rows Movies) as [|m ms] eqn:R1;
    [ assert (i1 = []) by (apply E1; reflexivity); subst i1
    | rewrite H1; pose proof (N _ _ E1 ltac:(discriminate)) as N1 ];
  (destruct (rows Ratings) as [|r rs] eqn:R2;
    [ assert (i2 = []) by (apply E2; reflexivity); subst i2
    | rewrite H2; pose proof (N _ _ E2 ltac:(discriminate)) as N2 ]);
  (destruct (rows Tags) as [|t ts] eqn:R3;
    [ assert (i3 = []) by (apply E3; reflexivity); subst i3
    | rewrite H3; pose proof (N _ _ E3 ltac:(discriminate)) as N3 ]);
  (destruct (rows Users) as [|u us] eqn:R4;
    [ assert (i4 = []) by (apply E4; reflexivity); subst i4
    | rewrite H4; pose proof (N _ _ E4 ltac:(discriminate)) as N4 ]);
  unfold nonempty; cbn [bind app filter map all_datasets];
  repeat match goal with
         | H : is_empty _ = false |- _ => rewrite !H; clear H
         end;
  reflexivity.
Qed.

Lemma read_csv_rows_total (content : pystr) (delimiter : ascii) :
  exists rows, read_csv_rows content delimiter = Ok rows.
Proof.
  unfold read_csv_rows, csv_reader.
  destruct (reader_rows_total delimiter (file_lines content) parse_reset
              (file_lines_ok content) (or_introl eq_refl)) as (rows & ->).
  eexists. reflexivity.
Qed.


Lemma create_block_nonempty (d : dataset) : create_block d <> [].
Proof. destruct d; discriminate. Qed.

Lemma filter_nonempty_all (l : list pystr) :
  Forall (fun b => b <> []) (filter nonempty l).
Proof.
  apply Forall_forall. intros b Hb. apply filter_In in Hb as [_ Hb].
  destruct b; [discriminate Hb|discriminate].
Qed.

(** Leaving an empty block out of the list does not change what is kept. *)
Lemma filter_nonempty_others (ins : dataset -> pystr) (d : dataset) :
  ins d = [] ->
  filter nonempty (map ins all_datasets) = filter nonempty (map ins (others d)).
Proof.
  intros H. destruct d; cbn [all_datasets others map filter dataset_eqb negb];
    rewrite H; reflexivity.
Qed.

(** C6.  For every dataset [d] without rows the script still holds the DROP
    and CREATE block of [d], the INSERT block of [d] is the empty string, and
    the script is the join of the other blocks alone: the prologue, the four
    CREATE blocks, the INSERT blocks of the other datasets that have rows,
    and COMMIT.  No block of that join is empty, so the omitted block leaves
    no separator behind. *)
Theorem empty_dataset_no_insert
    (rows : dataset -> list (list pyval)) (d : dataset) :
  rows d = [] ->
  insert_block rows d = Ok []
  /\ exists ins : dataset -> pystr,
       (forall d', insert_block rows d' = Ok (ins d'))
       /\ let blocks :=
            prologue ++ map create_block all_datasets
              ++ filter nonempty (map ins (others d)) ++ epilogue in
          assemble_rows rows = Ok (join [NL; NL] blocks)
          /\ In (create_block d) blocks
          /\ Forall (fun b => b <> []) blocks.
Proof.
  intros Hd.
  destruct (assemble_blocks rows) as (ins & Hins & Hempty & Hasm).
  assert (Hid : ins d = []) by (apply Hempty; exact Hd).
  split; [rewrite Hins, Hid; reflexivity|].
  exists ins. split; [exact Hins|].
  cbv zeta. split; [|split].
  - rewrite Hasm, (filter_nonempty_others ins d Hid). reflexivity.
  - apply in_or_app. right. apply in_or_app. left.
    apply in_map. destruct d; cbn; tauto.
  - apply Forall_app. split.
    { repeat constructor; discriminate. }
    apply Forall_app. split.
    { apply Forall_forall. intros b Hb. apply in_map_iff in Hb.
      destruct Hb as (d' & <- & _). apply create_block_nonempty. }
    apply Forall_app. split; [apply filter_nonempty_all|].
    repeat constructor; discriminate.
Qed.

(** The tags file holds no rows; movies has one row. *)
Lemma empty_dataset_no_insert_witness :
  insert_block
    (rows_of [[PStr (str "1"); PStr (str "Heat"); PInt 1995; PNone]] [] [] [])
    Tags
  = Ok [].
Proof.
  apply (@empty_dataset_no_insert
           (rows_of [[PStr (str "1"); PStr (str "Heat"); PInt 1995; PNone]]
                    [] [] [])
           Tags).
  reflexivity.
Defined.
